(** * red-circle-bot: the activity store, the tip heuristic and the daily broadcast

    A shallow embedding of [main.py].  The three module-level documents
    ([users], [reports], [tasks]), the data directory, the transport and the
    clock form one explicit [world]; every function of the source that reads
    or writes them is a computation in a state-and-exception monad over that
    world, so that an exception leaves the mutations made before it in place,
    as it does in Python.

    What the model fixes:
    - Text is a [string], the UTF-8 bytes of the Python [str]. The patterns
      the source replaces are ASCII, so replacing bytes and replacing code
      points agree; blanks are recognised by their UTF-8 bytes.
    - The documents in memory have the shape the handlers write: [users]
      maps an id to a name, [reports] and [tasks] map an id to a list of
      records. A [dict] is the list of its items in insertion order.
    - The environment is scripted inside the world: the outcome of each
      write to come, of each delivery to come, and the readings of the
      clock. A property stated for every world holds for every script.
    - [json.dump], [json.load] and [int] are parameters ([PyRuntime]); a
      reference implementation runs the examples. *)

From Stdlib Require Import ZArith String Ascii List DecimalString.
From stdpp Require Import base gmap strings list.

Local Open Scope string_scope.

(** ** Built-in string operations used by the source *)

Module PyStr.

Definition chr (n : nat) : string := String (ascii_of_nat n) EmptyString.

(** The line feed and the double quote, which string literals here avoid. *)
Definition NL : string := chr 10.
Definition DQ : string := chr 34.

(** [str(n)] for an [int]. *)
Definition str_of_int (z : Z) : string := NilZero.string_of_int (Z.to_int z).

(** [s.startswith(p)] *)
Fixpoint startswith (p s : string) : bool :=
  match p, s with
  | EmptyString, _ => true
  | String _ _, EmptyString => false
  | String a p', String b s' => if Ascii.eqb a b then startswith p' s' else false
  end.

(** [s[:n]] and [s[n:]] for [0 <= n]. *)
Fixpoint take_chars (n : nat) (s : string) : string :=
  match n, s with
  | S k, String c s' => String c (take_chars k s')
  | _, _ => EmptyString
  end.

Fixpoint drop_chars (n : nat) (s : string) : string :=
  match n, s with
  | S k, String _ s' => drop_chars k s'
  | _, _ => s
  end.

(** [s.replace(old, new)] for a non-empty [old]: the text is scanned from
    the left; at an occurrence of [old] the scan emits [new] and resumes
    after the occurrence ([skip] counts the characters of the occurrence
    still to pass over), so the occurrences replaced do not overlap. *)
Fixpoint replace_scan (old new : string) (skip : nat) (s : string) : string :=
  match s with
  | EmptyString => EmptyString
  | String c s' =>
      match skip with
      | S k => replace_scan old new k s'
      | O =>
          if startswith old s
          then new +:+ replace_scan old new (String.length old - 1) s'
          else String c (replace_scan old new 0 s')
      end
  end.

(** [s.replace("", new)]: [new] goes before every character and at the end. *)
Fixpoint replace_empty (new s : string) : string :=
  match s with
  | EmptyString => new
  | String c s' => new +:+ String c (replace_empty new s')
  end.

Definition replace (old new s : string) : string :=
  match old with
  | EmptyString => replace_empty new s
  | String _ _ => replace_scan old new 0 s
  end.

(** [c.isspace()] on the ASCII range: TAB, LF, VT, FF, CR, FS, GS, RS, US
    and the space. *)
Definition isspace (c : ascii) : bool :=
  let n := nat_of_ascii c in
  (Nat.leb 9 n && Nat.leb n 13) || (Nat.leb 28 n && Nat.leb n 32).

(** The number of bytes of the blank that [s] begins with, 0 when it begins
    with none. The blanks are the characters [str.isspace] accepts, in
    UTF-8: the ASCII ones above, U+0085 and U+00A0 (C2 85, C2 A0), U+1680
    (E1 9A 80), U+2000 to U+200A, U+2028, U+2029 and U+202F (E2 80 80 to 8A,
    A8, A9, AF), U+205F (E2 81 9F) and U+3000 (E3 80 80). *)
Definition blank_width (s : string) : nat :=
  match s with
  | EmptyString => 0
  | String c s1 =>
      let b0 := nat_of_ascii c in
      if isspace c then 1
      else
        match s1 with
        | EmptyString => 0
        | String d s2 =>
            let b1 := nat_of_ascii d in
            if Nat.eqb b0 194 then
              if Nat.eqb b1 133 || Nat.eqb b1 160 then 2 else 0
            else
              match s2 with
              | EmptyString => 0
              | String e _ =>
                  let b2 := nat_of_ascii e in
                  if Nat.eqb b0 225 then
                    if Nat.eqb b1 154 && Nat.eqb b2 128 then 3 else 0
                  else if Nat.eqb b0 226 then
                    if (Nat.eqb b1 128 &&
                        ((Nat.leb 128 b2 && Nat.leb b2 138) ||
                         Nat.eqb b2 168 || Nat.eqb b2 169 || Nat.eqb b2 175)) ||
                       (Nat.eqb b1 129 && Nat.eqb b2 159)
                    then 3 else 0
                  else if Nat.eqb b0 227 then
                    if Nat.eqb b1 128 && Nat.eqb b2 128 then 3 else 0
                  else 0
              end
        end
  end.

(** [s.lstrip()]: the blanks at the head are passed over ([skip] counts the
    bytes of the current blank still to pass). *)
Fixpoint lstrip_scan (skip : nat) (s : string) : string :=
  match s with
  | EmptyString => EmptyString
  | String c s' =>
      match skip with
      | S k => lstrip_scan k s'
      | O =>
          match blank_width (String c s') with
          | O => String c s'
          | S k => lstrip_scan k s'
          end
      end
  end.

Definition lstrip (s : string) : string := lstrip_scan 0 s.

(** [s] is made of blanks only. *)
Fixpoint all_blank_scan (skip : nat) (s : string) : bool :=
  match s with
  | EmptyString => true
  | String c s' =>
      match skip with
      | S k => all_blank_scan k s'
      | O =>
          match blank_width (String c s') with
          | O => false
          | S k => all_blank_scan k s'
          end
      end
  end.

(** [s.rstrip()]: the text is kept up to the point from which only blanks
    follow. *)
Fixpoint rstrip (s : string) : string :=
  match s with
  | EmptyString => EmptyString
  | String c s' =>
      if all_blank_scan 0 (String c s') then EmptyString else String c (rstrip s')
  end.

(** [s.strip()] *)
Definition strip (s : string) : string := rstrip (lstrip s).

(** [s.split()]: the maximal runs of characters that are no blanks. [word]
    is the run being read, if any; [skip] counts the bytes of the current
    blank still to pass. *)
Fixpoint split_scan (skip : nat) (word : option string) (s : string) : list string :=
  match s with
  | EmptyString => match word with Some w => [w] | None => [] end
  | String c s' =>
      match skip with
      | S k => split_scan k word s'
      | O =>
          match blank_width (String c s') with
          | S k =>
              match word with
              | Some w => w :: split_scan k None s'
              | None => split_scan k None s'
              end
          | O => split_scan 0 (Some (default EmptyString word +:+ String c EmptyString)) s'
          end
      end
  end.

Definition split (s : string) : list string := split_scan 0 None s.

(** [sep.join(l)] *)
Definition join (sep : string) (l : list string) : string := String.concat sep l.

(** [old in s]: [old] occurs somewhere in [s]. *)
Fixpoint occurs (old s : string) : bool :=
  startswith old s ||
  match s with
  | EmptyString => false
  | String _ s' => occurs old s'
  end.

(** A text has no border when none of its proper non-empty suffixes is a
    prefix of it; two occurrences of such a text never overlap. *)
Definition unbordered (p : string) : Prop :=
  forall k, 0 < k < String.length p -> startswith (drop_chars k p) p = false.

Definition unborderedb (p : string) : bool :=
  forallb (fun k => negb (startswith (drop_chars k p) p))
          (seq 1 (String.length p - 1)).

(** [bool(s)]: a string is true when it is not empty. *)
Definition truthy (s : string) : bool :=
  match s with EmptyString => false | String _ _ => true end.

End PyStr.

(** ** Lists: the slice [l[-n:]] *)

Definition last_n {A : Type} (n : nat) (l : list A) : list A :=
  drop (length l - n) l.

(** ** Python dictionaries

    A [dict] keeps its keys in insertion order and [users.items()] iterates
    in that order, which the name lookup of [show_reports] depends on; the
    model is the list of its items. Assigning to a key that is present
    replaces the value where it stands, assigning to a new key adds the item
    at the end. *)

Module PyDict.

Definition dict (V : Type) : Type := list (string * V).

Section Ops.
Context {V : Type}.

(** [d.get(k)] *)
Fixpoint get (k : string) (d : dict V) : option V :=
  match d with
  | [] => None
  | (k', v) :: d' => if String.eqb k' k then Some v else get k d'
  end.

(** [k in d] *)
Definition contains (k : string) (d : dict V) : bool :=
  match get k d with Some _ => true | None => false end.

(** [d.get(k, dflt)] *)
Definition get_or (k : string) (dflt : V) (d : dict V) : V :=
  default dflt (get k d).

(** [d[k] = v] *)
Fixpoint set (k : string) (v : V) (d : dict V) : dict V :=
  match d with
  | [] => [(k, v)]
  | (k', v') :: d' =>
      if String.eqb k' k then (k', v) :: d' else (k', v') :: set k v d'
  end.

(** [d.items()] *)
Definition items (d : dict V) : list (string * V) := d.

Definition keys (d : dict V) : list string := map fst d.
End Ops.

End PyDict.

Import PyDict.

(** ** JSON values and the library functions the program calls *)

#[local] Set Warnings "-register-all".

Inductive json : Type :=
  | JNull
  | JBool (b : bool)
  | JNum (z : Z)
  | JStr (s : string)
  | JArr (l : list json)
  | JObj (kv : list (string * json)).

(** [json.dump], [json.load] and [int] belong to the interpreter, not to the
    repository; the program is modelled over any behaviour of them.
    [json_dumps d] is the text [json.dump(d, f, indent=4, ensure_ascii=False)]
    writes, [json_loads] and [int_of_str] answer [None] where [json.load] and
    [int] raise. The one fact about them the program relies on is that the
    text written for the empty document loads as the empty document. *)
Class PyRuntime : Type := {
  json_dumps : json -> string;
  json_loads : string -> option json;
  int_of_str : string -> option Z;
  json_loads_dumps_empty : json_loads (json_dumps (JObj [])) = Some (JObj [])
}.

(** ** The data model *)

(** An element of [reports[uid]]: [{"text": ..., "time": ...}]. *)
Record Report : Type := { report_text : string; report_time : string }.

(** An element of [tasks[uid]]: [{"title": ..., "done": ..., "time": ...}]. *)
Record Task : Type := { task_title : string; task_done : bool; task_time : string }.

Definition json_of_report (r : Report) : json :=
  JObj [("text", JStr (report_text r)); ("time", JStr (report_time r))].

Definition json_of_task (t : Task) : json :=
  JObj [("title", JStr (task_title t)); ("done", JBool (task_done t));
        ("time", JStr (task_time t))].

Definition json_of_users (d : dict string) : json :=
  JObj (map (fun kv => (fst kv, JStr (snd kv))) d).

Definition json_of_reports (d : dict (list Report)) : json :=
  JObj (map (fun kv => (fst kv, JArr (map json_of_report (snd kv)))) d).

Definition json_of_tasks (d : dict (list Task)) : json :=
  JObj (map (fun kv => (fst kv, JArr (map json_of_task (snd kv)))) d).

(** Reading a document back: the inverse of the encodings above. A value of
    any other shape, or an object that repeats a key, has no typed
    counterpart. *)
Definition string_of_json (v : json) : option string :=
  match v with
  | JStr s => Some s
  | _ => None
  end.

Definition report_of_json (v : json) : option Report :=
  match v with
  | JObj [(k1, JStr text); (k2, JStr time)] =>
      if String.eqb k1 "text" && String.eqb k2 "time"
      then Some {| report_text := text; report_time := time |}
      else None
  | _ => None
  end.

Definition task_of_json (v : json) : option Task :=
  match v with
  | JObj [(k1, JStr title); (k2, JBool done); (k3, JStr time)] =>
      if String.eqb k1 "title" && String.eqb k2 "done" && String.eqb k3 "time"
      then Some {| task_title := title; task_done := done; task_time := time |}
      else None
  | _ => None
  end.

Fixpoint elements_of_json {V : Type} (value : json -> option V) (l : list json)
    : option (list V) :=
  match l with
  | [] => Some []
  | x :: rest =>
      match value x, elements_of_json value rest with
      | Some v, Some vs => Some (v :: vs)
      | _, _ => None
      end
  end.

Definition list_of_json {V : Type} (value : json -> option V) (v : json)
    : option (list V) :=
  match v with
  | JArr l => elements_of_json value l
  | _ => None
  end.

Fixpoint items_of_json {V : Type} (value : json -> option V) (kv : list (string * json))
    : option (dict V) :=
  match kv with
  | [] => Some []
  | (k, x) :: rest =>
      match value x, items_of_json value rest with
      | Some v, Some d => if contains k d then None else Some ((k, v) :: d)
      | _, _ => None
      end
  end.

Definition dict_of_json {V : Type} (value : json -> option V) (v : json)
    : option (dict V) :=
  match v with
  | JObj kv => items_of_json value kv
  | _ => None
  end.

Definition users_of_json : json -> option (dict string) :=
  dict_of_json string_of_json.

Definition reports_of_json : json -> option (dict (list Report)) :=
  dict_of_json (list_of_json report_of_json).

Definition tasks_of_json : json -> option (dict (list Task)) :=
  dict_of_json (list_of_json task_of_json).

(** ** The world *)

(** What happens to one [open(path, "w")] followed by the write: it goes
    through; the open is refused and the file is untouched; or the file is
    opened (and so truncated) and the write stops after [n] characters. *)
Inductive write_outcome : Type :=
  | WriteOk
  | OpenDenied
  | WriteFault (n : nat).

Record world : Type := {
  (** the module-level documents *)
  users : dict string;
  reports : dict (list Report);
  tasks : dict (list Task);
  (** the files of the data directory, by path *)
  files : gmap string string;
  (** the outcomes of the writes to come (a write past the end goes through)
      and the writes attempted so far, oldest first *)
  write_script : list write_outcome;
  write_log : list (string * write_outcome);
  (** the readings [datetime.datetime.now().isoformat()] will give *)
  clock : list string;
  (** for the calls of [send_message] to come, whether the transport accepts
      the message (past the end it does), and the messages it accepted *)
  net_script : list bool;
  outbox : list (Z * string)
}.

Definition set_users (f : dict string -> dict string) (w : world) : world :=
  {| users := f (users w); reports := reports w; tasks := tasks w;
     files := files w; write_script := write_script w; write_log := write_log w;
     clock := clock w; net_script := net_script w; outbox := outbox w |}.

Definition set_reports (f : dict (list Report) -> dict (list Report)) (w : world) : world :=
  {| users := users w; reports := f (reports w); tasks := tasks w;
     files := files w; write_script := write_script w; write_log := write_log w;
     clock := clock w; net_script := net_script w; outbox := outbox w |}.

Definition set_tasks (f : dict (list Task) -> dict (list Task)) (w : world) : world :=
  {| users := users w; reports := reports w; tasks := f (tasks w);
     files := files w; write_script := write_script w; write_log := write_log w;
     clock := clock w; net_script := net_script w; outbox := outbox w |}.

(** One write attempt: the head of the script is consumed and logged, and the
    file becomes [content] if given. *)
Definition write_attempt (path : string) (o : write_outcome)
    (content : option string) (w : world) : world :=
  {| users := users w; reports := reports w; tasks := tasks w;
     files := match content with
              | Some s => <[path := s]> (files w)
              | None => files w
              end;
     write_script := tail (write_script w);
     write_log := write_log w ++ [(path, o)];
     clock := clock w; net_script := net_script w; outbox := outbox w |}.

Definition tick (w : world) : world :=
  {| users := users w; reports := reports w; tasks := tasks w;
     files := files w; write_script := write_script w; write_log := write_log w;
     clock := tail (clock w); net_script := net_script w; outbox := outbox w |}.

Definition net_attempt (accepted : option (Z * string)) (w : world) : world :=
  {| users := users w; reports := reports w; tasks := tasks w;
     files := files w; write_script := write_script w; write_log := write_log w;
     clock := clock w; net_script := tail (net_script w);
     outbox := match accepted with
               | Some m => outbox w ++ [m]
               | None => outbox w
               end |}.

(** ** Computations: state and exceptions *)

(** The exceptions of Python that can occur, and [OutsideModel], which is
    none of them: it ends a run that would give a document a shape the typed
    documents of the world cannot hold. *)
Inductive exn : Type :=
  | OSError
  | JSONDecodeError
  | KeyError
  | ValueError
  | TransportError
  | OutsideModel.

Inductive result (A : Type) : Type :=
  | Ok (a : A)
  | Raise (e : exn).
Arguments Ok {A} a.
Arguments Raise {A} e.

Definition M (A : Type) : Type := world -> world * result A.

Definition ret {A : Type} (a : A) : M A := fun w => (w, Ok a).

Definition raise {A : Type} (e : exn) : M A := fun w => (w, Raise e).

Definition bind {A B : Type} (m : M A) (k : A -> M B) : M B :=
  fun w =>
    match m w with
    | (w', Ok a) => k a w'
    | (w', Raise e) => (w', Raise e)
    end.

(** [try: m  except: h], with the bare [except] of the source, which catches
    every exception. *)
Definition try_except {A : Type} (m h : M A) : M A :=
  fun w =>
    match m w with
    | (w', Ok a) => (w', Ok a)
    | (w', Raise _) => h w'
    end.

Definition gets {A : Type} (f : world -> A) : M A := fun w => (w, Ok (f w)).

Definition modify (f : world -> world) : M unit := fun w => (f w, Ok tt).

Declare Scope py_scope.
Delimit Scope py_scope with py.
Notation "x <- c1 ;; c2" := (bind c1 (fun x => c2))
  (at level 100, c1 at next level, right associativity) : py_scope.
Notation "c1 ;; c2" := (bind c1 (fun _ => c2))
  (at level 100, right associativity) : py_scope.
Local Open Scope py_scope.

(** [for x in l: body x] *)
Fixpoint for_each {A : Type} (l : list A) (body : A -> M unit) : M unit :=
  match l with
  | [] => ret tt
  | x :: l' => body x ;; for_each l' body
  end.

(** [d[k]], which raises [KeyError] on a missing key. *)
Definition getitem {V : Type} (k : string) (d : dict V) : M V :=
  match get k d with
  | Some v => ret v
  | None => raise KeyError
  end.

(** [datetime.datetime.now().isoformat()] *)
Definition now_isoformat : M string :=
  fun w => (tick w, Ok (hd EmptyString (clock w))).

(** ** The program *)

(** [user.id] is an [int] in the handlers, while [daily_summary] passes the
    key of [users], a [str]; [ensure_user] and [generate_tip] apply [str] to
    either. *)
Inductive id_arg : Type :=
  | IntId (z : Z)
  | StrId (s : string).

Definition py_str (x : id_arg) : string :=
  match x with
  | IntId z => PyStr.str_of_int z
  | StrId s => s
  end.

(** What a handler reads of its [update]: [update.message.from_user.id],
    [update.message.from_user.first_name] and [update.message.text]. *)
Record Update : Type := {
  sender_id : Z;
  sender_first_name : string;
  message_text : string
}.

(** The fixed texts, as the source writes them. *)
Definition TIP_BACKLOG : string := "چند تا کار عقب‌افتاده داری، پیشنهاد می‌کنم فردا اول صبح همون‌ها رو جمع کنی 🌱".
Definition TIP_LOW_VOLUME : string := "گزارش‌هات کم بود امروز؛ پیشنهاد می‌کنم چند کار کوچیک هم بنویسی تا جریان کارت منظم‌تر باشه ⚡️".
Definition TIP_STEADY : string := "کارها مرتب بود! فقط سعی کن وقفه‌های طولانی بین کارها رو کمتر کنی تا انرژی‌ت بهتر بمونه 💪".
Definition REPLY_REPORT_SAVED : string := "گزارشت ذخیره شد ✔️".
Definition REPLY_NOT_FOUND : string := "کاربری با این نام پیدا نشد ❌".
Definition REPLY_NO_REPORTS : string := "هیچ گزارشی وجود ندارد.".
Definition REPLY_REPORTS_HEADER : string := "آخرین گزارش‌ها:".
Definition REPLY_TASK_ADDED : string := "کار به لیست اضافه شد 📝".

Section Program.

Context {R : PyRuntime}.
Import PyStr.

(** *** Paths *)

Definition DATA_DIR : string := "data".
Definition path_join (a b : string) : string := a +:+ "/" +:+ b.
Definition USERS_FILE : string := path_join DATA_DIR "users.json".
Definition REPORTS_FILE : string := path_join DATA_DIR "reports.json".
Definition TASKS_FILE : string := path_join DATA_DIR "tasks.json".

(** *** Helper functions *)

(** [os.path.exists(path)] *)
Definition path_exists (path : string) : M bool :=
  gets (fun w => match files w !! path with Some _ => true | None => false end).

(** [with open(path, "w") as f: json.dump(data, f, ...)]: the file itself
    is opened and written, so a write that stops early leaves the
    characters written so far in it. An error propagates to the caller. *)
Definition save_json (path : string) (data : json) : M unit :=
  fun w =>
    match hd WriteOk (write_script w) with
    | WriteOk =>
        (write_attempt path WriteOk (Some (json_dumps data)) w, Ok tt)
    | OpenDenied =>
        (write_attempt path OpenDenied None w, Raise OSError)
    | WriteFault n =>
        (write_attempt path (WriteFault n) (Some (take_chars n (json_dumps data))) w,
         Raise OSError)
    end.

(** [with open(path, "r") as f: return json.load(f)] *)
Definition read_json (path : string) : M json :=
  fun w =>
    match files w !! path with
    | None => (w, Raise OSError)
    | Some s =>
        match json_loads s with
        | Some v => (w, Ok v)
        | None => (w, Raise JSONDecodeError)
        end
    end.

Definition load_json (path : string) (default : json) : M json :=
  present <- path_exists path ;;
  (if negb present then save_json path default else ret tt) ;;
  try_except (read_json path) (save_json path default ;; ret default).

Definition get_username (user_id : id_arg) : M string :=
  gets (fun w => get_or (py_str user_id) "Unknown" (users w)).

Definition ensure_user (user_id : id_arg) (name : string) : M unit :=
  let user_id := py_str user_id in
  present <- gets (fun w => contains user_id (users w)) ;;
  if negb present then
    modify (set_users (set user_id name)) ;;
    us <- gets users ;;
    save_json USERS_FILE (json_of_users us)
  else ret tt.

(** *** Productivity tips generator *)

(** The inner loop of the tally: [repeated[word] = repeated.get(word, 0) + 1]
    for every word of [txt]. *)
Definition count_words (repeated : dict nat) (txt : string) : dict nat :=
  fold_left (fun rep word => set word (get_or word 0 rep + 1) rep)
            (split txt) repeated.

Definition generate_tip (user_id : id_arg) : M string :=
  let uid := py_str user_id in
  user_reports <- gets (fun w => get_or uid [] (reports w)) ;;
  user_tasks <- gets (fun w => get_or uid [] (tasks w)) ;;
  let pending := List.filter (fun t => negb (task_done t)) user_tasks in
  let idle_time := 0 in
  let volume := length user_reports in
  let repeated :=
    fold_left (fun rep r => count_words rep (report_text r))
              (last_n 5 user_reports) [] in
  let txt :=
    if Nat.ltb 3 (length pending) then TIP_BACKLOG
    else if Nat.ltb volume 2 then TIP_LOW_VOLUME
    else TIP_STEADY in
  ret txt.

(** *** Telegram commands

    A handler ends by handing a text to [update.message.reply_text]; that
    text is the handler's value here. *)

Definition start (update : Update) : M string :=
  ensure_user (IntId (sender_id update)) (sender_first_name update) ;;
  ret ("سلام " +:+ sender_first_name update +:+ "! گزارش روزانه‌ت رو بفرست 🌟").

(** Lines 96 to 103 of [report]: the append to [reports[uid]] and the save
    ([append_report] in the specification). *)
Definition append_report (uid text : string) : M unit :=
  present <- gets (fun w => contains uid (reports w)) ;;
  (if negb present then modify (set_reports (set uid [])) else ret tt) ;;
  rs <- gets reports ;;
  entries <- getitem uid rs ;;
  t <- now_isoformat ;;
  modify (set_reports (set uid (entries ++ [{| report_text := text; report_time := t |}])%list)) ;;
  rs <- gets reports ;;
  save_json REPORTS_FILE (json_of_reports rs).

Definition report (update : Update) : M string :=
  ensure_user (IntId (sender_id update)) (sender_first_name update) ;;
  let text := replace "/report " "" (message_text update) in
  let uid := str_of_int (sender_id update) in
  append_report uid text ;;
  ret REPLY_REPORT_SAVED.

(** The [for ... else] of [show_reports]: the key of the first item of
    [users] whose name is [name_to_find], [None] when the loop runs to
    its [else] ([resolve_id_by_name] in the specification). *)
Fixpoint resolve_id_by_name (us : list (string * string)) (name_to_find : string)
    : option string :=
  match us with
  | [] => None
  | (uid, name) :: rest =>
      if String.eqb name name_to_find then Some uid
      else resolve_id_by_name rest name_to_find
  end.

(** Lines 109 to 112 of [show_reports]: the name the lookup is made with. *)
Definition name_to_find (update : Update) : string :=
  let target := strip (replace "/show " "" (message_text update)) in
  if truthy target then target else sender_first_name update.

Definition show_reports (update : Update) : M string :=
  let name_to_find := name_to_find update in
  us <- gets users ;;
  match resolve_id_by_name (items us) name_to_find with
  | None => ret REPLY_NOT_FOUND
  | Some selected =>
      user_reports <- gets (fun w => get_or selected [] (reports w)) ;;
      match user_reports with
      | [] => ret REPLY_NO_REPORTS
      | _ :: _ =>
          let txt :=
            join (NL +:+ NL)
                 (map (fun r => "- " +:+ report_text r) (last_n 10 user_reports)) in
          ret (REPLY_REPORTS_HEADER +:+ NL +:+ NL +:+ txt)
      end
  end.

(** Lines 138 to 146 of [add_task] ([append_task] in the specification). *)
Definition append_task (uid text : string) : M unit :=
  present <- gets (fun w => contains uid (tasks w)) ;;
  (if negb present then modify (set_tasks (set uid [])) else ret tt) ;;
  ts <- gets tasks ;;
  entries <- getitem uid ts ;;
  t <- now_isoformat ;;
  modify (set_tasks (set uid (entries ++
    [{| task_title := text; task_done := false; task_time := t |}])%list)) ;;
  ts <- gets tasks ;;
  save_json TASKS_FILE (json_of_tasks ts).

Definition add_task (update : Update) : M string :=
  ensure_user (IntId (sender_id update)) (sender_first_name update) ;;
  let text := replace "/task " "" (message_text update) in
  let uid := str_of_int (sender_id update) in
  append_task uid text ;;
  ret REPLY_TASK_ADDED.

(** [int(uid)] *)
Definition py_int (s : string) : M Z :=
  match int_of_str s with
  | Some z => ret z
  | None => raise ValueError
  end.

(** [app.bot.send_message(chat_id=..., text=...)] *)
Definition send_message (chat_id : Z) (text : string) : M unit :=
  fun w =>
    if hd true (net_script w)
    then (net_attempt (Some (chat_id, text)) w, Ok tt)
    else (net_attempt None w, Raise TransportError).

(** Lines 153 to 162 of [daily_summary]: the text sent to one user
    ([generate_summary] in the specification). *)
Definition generate_summary (uid name : string) : M string :=
  user_reports <- gets (fun w => get_or uid [] (reports w)) ;;
  user_tasks <- gets (fun w => get_or uid [] (tasks w)) ;;
  let pending := List.filter (fun t => negb (task_done t)) user_tasks in
  tip <- generate_tip (StrId uid) ;;
  ret ("خلاصه روزانه " +:+ name +:+ ":" +:+ NL +:+ NL +:+
       "تعداد گزارش‌ها: " +:+ str_of_int (Z.of_nat (length user_reports)) +:+ NL +:+
       "کارهای عقب‌افتاده: " +:+ str_of_int (Z.of_nat (length pending)) +:+ NL +:+ NL +:+
       "پیشنهاد امروز:" +:+ NL +:+ tip).

Definition daily_summary : M unit :=
  us <- gets users ;;
  for_each (items us) (fun item =>
    let uid := fst item in
    let name := snd item in
    text <- generate_summary uid name ;;
    try_except (chat_id <- py_int uid ;; send_message chat_id text)
               (ret tt)).

Definition tip_command (update : Update) : M string :=
  tip <- generate_tip (IntId (sender_id update)) ;;
  ret tip.

End Program.

(** ** A reference runtime

    One concrete [PyRuntime], used to run the program on examples: the
    serializer writes what [json.dump(..., indent=4, ensure_ascii=False)]
    writes for documents of strings, integers, booleans, lists and objects;
    the parser reads JSON text with integer numbers and escapes inside the
    Basic Multilingual Plane; [int] reads an ASCII decimal literal. *)

Module Reference.
Import PyStr.

Fixpoint indent (level : nat) : string :=
  match level with
  | O => EmptyString
  | S n => "    " +:+ indent n
  end.

Definition hex_digit (n : nat) : ascii :=
  ascii_of_nat (if Nat.ltb n 10 then 48 + n else 87 + n).

Definition BACKSLASH : string := chr 92.

(** The escapes of [json.encoder] with [ensure_ascii=False]. *)
Definition escape_char (c : ascii) : string :=
  let n := nat_of_ascii c in
  if Nat.eqb n 34 then BACKSLASH +:+ DQ
  else if Nat.eqb n 92 then BACKSLASH +:+ BACKSLASH
  else if Nat.eqb n 10 then BACKSLASH +:+ "n"
  else if Nat.eqb n 13 then BACKSLASH +:+ "r"
  else if Nat.eqb n 9 then BACKSLASH +:+ "t"
  else if Nat.eqb n 8 then BACKSLASH +:+ "b"
  else if Nat.eqb n 12 then BACKSLASH +:+ "f"
  else if Nat.ltb n 32
       then BACKSLASH +:+ "u00" +:+
            String (hex_digit (n / 16)) (String (hex_digit (n mod 16)) EmptyString)
  else String c EmptyString.

Fixpoint escape (s : string) : string :=
  match s with
  | EmptyString => EmptyString
  | String c s' => escape_char c +:+ escape s'
  end.

Definition quote (s : string) : string := DQ +:+ escape s +:+ DQ.

Fixpoint dumps_at (level : nat) (v : json) : string :=
  match v with
  | JNull => "null"
  | JBool b => if b then "true" else "false"
  | JNum z => str_of_int z
  | JStr s => quote s
  | JArr l =>
      match l with
      | [] => "[]"
      | _ :: _ =>
          "[" +:+ NL +:+ indent (S level) +:+
          join ("," +:+ NL +:+ indent (S level)) (map (dumps_at (S level)) l) +:+
          NL +:+ indent level +:+ "]"
      end
  | JObj kv =>
      match kv with
      | [] => "{}"
      | _ :: _ =>
          "{" +:+ NL +:+ indent (S level) +:+
          join ("," +:+ NL +:+ indent (S level))
               (map (fun p => let '(k, x) := p in
                              quote k +:+ ": " +:+ dumps_at (S level) x) kv) +:+
          NL +:+ indent level +:+ "}"
      end
  end.

Definition dumps (v : json) : string := dumps_at 0 v.

(** *** Reading *)

Definition is_ws (c : ascii) : bool :=
  let n := nat_of_ascii c in
  Nat.eqb n 32 || Nat.eqb n 9 || Nat.eqb n 10 || Nat.eqb n 13.

Fixpoint skip_ws (s : string) : string :=
  match s with
  | EmptyString => EmptyString
  | String c s' => if is_ws c then skip_ws s' else s
  end.

Definition is_digit (c : ascii) : bool :=
  let n := nat_of_ascii c in Nat.leb 48 n && Nat.leb n 57.

Definition digit_value (c : ascii) : Z := Z.of_nat (nat_of_ascii c - 48).

Fixpoint read_digits (acc : Z) (s : string) : Z * string :=
  match s with
  | EmptyString => (acc, EmptyString)
  | String c s' =>
      if is_digit c then read_digits (10 * acc + digit_value c) s' else (acc, s)
  end.

Definition starts_fraction (s : string) : bool :=
  match s with
  | String c _ =>
      let n := nat_of_ascii c in Nat.eqb n 46 || Nat.eqb n 69 || Nat.eqb n 101
  | EmptyString => false
  end.

(** An integer literal: no leading zero before another digit, no fraction
    and no exponent. *)
Definition read_natural (s : string) : option (Z * string) :=
  match s with
  | String c s' =>
      if negb (is_digit c) then None
      else
        let '(n, rest) := read_digits 0 s in
        let leading_zero :=
          Nat.eqb (nat_of_ascii c) 48 &&
          match s' with String d _ => is_digit d | EmptyString => false end in
        if leading_zero || starts_fraction rest then None else Some (n, rest)
  | EmptyString => None
  end.

Definition read_number (s : string) : option (Z * string) :=
  match s with
  | String c s' =>
      if Nat.eqb (nat_of_ascii c) 45
      then match read_natural s' with
           | Some (n, rest) => Some (Z.opp n, rest)
           | None => None
           end
      else read_natural s
  | EmptyString => None
  end.

Definition hex_value (c : ascii) : option N :=
  let n := nat_of_ascii c in
  if Nat.leb 48 n && Nat.leb n 57 then Some (N.of_nat (n - 48))
  else if Nat.leb 97 n && Nat.leb n 102 then Some (N.of_nat (n - 87))
  else if Nat.leb 65 n && Nat.leb n 70 then Some (N.of_nat (n - 55))
  else None.

(** The UTF-8 bytes of a code point below 65536 that is not a surrogate. *)
Definition utf8 (n : N) : option string :=
  let byte (b : N) := chr (N.to_nat b) in
  if (n <? 128)%N then Some (byte n)
  else if (n <? 2048)%N then Some (byte (192 + n / 64) +:+ byte (128 + n mod 64))%N
  else if ((55296 <=? n) && (n <=? 57343))%N then None
  else Some (byte (224 + n / 4096) +:+ byte (128 + (n / 64) mod 64) +:+
             byte (128 + n mod 64))%N.

Definition unescape (c : ascii) : option string :=
  let n := nat_of_ascii c in
  if Nat.eqb n 34 then Some DQ
  else if Nat.eqb n 92 then Some BACKSLASH
  else if Nat.eqb n 47 then Some "/"
  else if Nat.eqb n 98 then Some (chr 8)
  else if Nat.eqb n 102 then Some (chr 12)
  else if Nat.eqb n 110 then Some (chr 10)
  else if Nat.eqb n 114 then Some (chr 13)
  else if Nat.eqb n 116 then Some (chr 9)
  else None.

(** The body of a string, after its opening quote. *)
Fixpoint read_string (acc : string) (s : string) : option (string * string) :=
  match s with
  | EmptyString => None
  | String c s' =>
      let n := nat_of_ascii c in
      if Nat.eqb n 34 then Some (acc, s')
      else if Nat.ltb n 32 then None
      else if Nat.eqb n 92 then
        match s' with
        | String e s'' =>
            if Nat.eqb (nat_of_ascii e) 117 then
              match s'' with
              | String h1 (String h2 (String h3 (String h4 rest))) =>
                  match hex_value h1, hex_value h2, hex_value h3, hex_value h4 with
                  | Some a, Some b, Some c', Some d =>
                      match utf8 (((a * 16 + b) * 16 + c') * 16 + d)%N with
                      | Some bytes => read_string (acc +:+ bytes) rest
                      | None => None
                      end
                  | _, _, _, _ => None
                  end
              | _ => None
              end
            else
              match unescape e with
              | Some ch => read_string (acc +:+ ch) s''
              | None => None
              end
        | EmptyString => None
        end
      else read_string (acc +:+ String c EmptyString) s'
  end.

Definition expect (lit : string) (v : json) (s : string) : option (json * string) :=
  if startswith lit s then Some (v, drop_chars (String.length lit) s) else None.

Fixpoint parse_value (fuel : nat) (s : string) {struct fuel} : option (json * string) :=
  match fuel with
  | O => None
  | S f =>
      match skip_ws s with
      | EmptyString => None
      | String c s' =>
          let n := nat_of_ascii c in
          if Nat.eqb n 123 then
            match skip_ws s' with
            | String c' r =>
                if Nat.eqb (nat_of_ascii c') 125 then Some (JObj [], r)
                else match parse_members f [] (skip_ws s') with
                     | Some (kv, r') => Some (JObj kv, r')
                     | None => None
                     end
            | EmptyString => None
            end
          else if Nat.eqb n 91 then
            match skip_ws s' with
            | String c' r =>
                if Nat.eqb (nat_of_ascii c') 93 then Some (JArr [], r)
                else match parse_items f [] (skip_ws s') with
                     | Some (l, r') => Some (JArr l, r')
                     | None => None
                     end
            | EmptyString => None
            end
          else if Nat.eqb n 34 then
            match read_string EmptyString s' with
            | Some (str, r) => Some (JStr str, r)
            | None => None
            end
          else if Nat.eqb n 116 then expect "true" (JBool true) (String c s')
          else if Nat.eqb n 102 then expect "false" (JBool false) (String c s')
          else if Nat.eqb n 110 then expect "null" JNull (String c s')
          else match read_number (String c s') with
               | Some (z, r) => Some (JNum z, r)
               | None => None
               end
      end
  end
with parse_items (fuel : nat) (acc : list json) (s : string) {struct fuel}
    : option (list json * string) :=
  match fuel with
  | O => None
  | S f =>
      match parse_value f s with
      | Some (v, r) =>
          match skip_ws r with
          | String c r' =>
              if Nat.eqb (nat_of_ascii c) 44 then parse_items f (acc ++ [v])%list r'
              else if Nat.eqb (nat_of_ascii c) 93 then Some ((acc ++ [v])%list, r')
              else None
          | EmptyString => None
          end
      | None => None
      end
  end
with parse_members (fuel : nat) (acc : list (string * json)) (s : string) {struct fuel}
    : option (list (string * json) * string) :=
  match fuel with
  | O => None
  | S f =>
      match skip_ws s with
      | String q s' =>
          if negb (Nat.eqb (nat_of_ascii q) 34) then None
          else
            match read_string EmptyString s' with
            | Some (k, r) =>
                match skip_ws r with
                | String c r' =>
                    if negb (Nat.eqb (nat_of_ascii c) 58) then None
                    else
                      match parse_value f r' with
                      | Some (v, r2) =>
                          match skip_ws r2 with
                          | String d r3 =>
                              if Nat.eqb (nat_of_ascii d) 44
                              then parse_members f (acc ++ [(k, v)])%list r3
                              else if Nat.eqb (nat_of_ascii d) 125
                              then Some ((acc ++ [(k, v)])%list, r3)
                              else None
                          | EmptyString => None
                          end
                      | None => None
                      end
                | EmptyString => None
                end
            | None => None
            end
      | EmptyString => None
      end
  end.

Definition loads (s : string) : option json :=
  match parse_value (S (String.length s)) s with
  | Some (v, rest) =>
      match skip_ws rest with
      | EmptyString => Some v
      | String _ _ => None
      end
  | None => None
  end.

(** *** [int(s)] on ASCII text: surrounding blanks, a sign, and digits
    that single underscores may separate. *)
Fixpoint read_int_digits (acc : Z) (after_digit : bool) (s : string) : option Z :=
  match s with
  | EmptyString => if after_digit then Some acc else None
  | String c s' =>
      if is_digit c then read_int_digits (10 * acc + digit_value c) true s'
      else if Nat.eqb (nat_of_ascii c) 95 && after_digit
      then match s' with
           | String d _ => if is_digit d then read_int_digits acc false s' else None
           | EmptyString => None
           end
      else None
  end.

Definition int_of (s : string) : option Z :=
  match strip s with
  | EmptyString => None
  | String c s' =>
      let n := nat_of_ascii c in
      if Nat.eqb n 45 then option_map Z.opp (read_int_digits 0 false s')
      else if Nat.eqb n 43 then read_int_digits 0 false s'
      else read_int_digits 0 false (String c s')
  end.

End Reference.

Definition reference_runtime : PyRuntime :=
  {| json_dumps := Reference.dumps;
     json_loads := Reference.loads;
     int_of_str := Reference.int_of;
     json_loads_dumps_empty := eq_refl |}.

(** The element an append adds to a history in world [w]: its time is the
    next reading of the clock. *)
Definition new_report (text : string) (w : world) : Report :=
  {| report_text := text; report_time := hd EmptyString (clock w) |}.

Definition new_task (text : string) (w : world) : Task :=
  {| task_title := text; task_done := false; task_time := hd EmptyString (clock w) |}.

(** The decision table of the specification (section 4.3, step 4), on the
    two counts it names: the first matching rule wins. [generate_tip] is
    compared with it below. *)
Definition tip_decision (pending_count volume : nat) : string :=
  if Nat.ltb 3 pending_count then TIP_BACKLOG
  else if Nat.ltb volume 2 then TIP_LOW_VOLUME
  else TIP_STEADY.

(** The two counts, read off a world: the tasks of [uid] whose [done] is
    false, and all the reports of [uid]. *)
Definition pending_count (w : world) (uid : string) : nat :=
  length (List.filter (fun t => negb (task_done t)) (get_or uid [] (tasks w))).

Definition volume (w : world) (uid : string) : nat :=
  length (get_or uid [] (reports w)).

(** The attempts the transport takes: the i-th attempt of a run meets the
    i-th outcome of the script, whatever became of the attempts before it,
    and an attempt past the end of the script is taken. *)
Fixpoint accepted {A : Type} (ms : list A) (net : list bool) : list A :=
  match ms with
  | [] => []
  | m :: ms' =>
      match net with
      | [] => m :: accepted ms' []
      | ok :: net' => if ok then m :: accepted ms' net' else accepted ms' net'
      end
  end.

Section Broadcast.
Context {R : PyRuntime}.

(** The text [daily_summary] composes for one user in world [w]. *)
Definition summary_text (w : world) (uid name : string) : string :=
  match snd (generate_summary uid name w) with
  | Ok text => text
  | Raise _ => EmptyString
  end.

(** The messages a run of [daily_summary] tries to send, in the order of
    [users]: one for each user whose key [int] accepts. *)
Definition attempts (w : world) : list (Z * string) :=
  omap (fun item : string * string =>
          match int_of_str (fst item) with
          | Some chat_id => Some (chat_id, summary_text w (fst item) (snd item))
          | None => None
          end)
       (items (users w)).

(** The world after the iteration of [daily_summary] for one item of
    [users]: when [int] accepts the key, one call of the transport, which
    takes the message or not; otherwise nothing. *)
Definition after_delivery (w : world) (item : string * string) : world :=
  match int_of_str (fst item) with
  | Some chat_id =>
      net_attempt (if hd true (net_script w)
                   then Some (chat_id, summary_text w (fst item) (snd item))
                   else None) w
  | None => w
  end.

End Broadcast.

(** A world with empty documents, an empty data directory, no fault to
    come and a silent clock; the examples below are built from it. *)
Definition blank_world : world :=
  {| users := []; reports := []; tasks := [];
     files := ∅; write_script := []; write_log := [];
     clock := []; net_script := []; outbox := [] |}.

Definition with_files (fs : gmap string string) (w : world) : world :=
  {| users := users w; reports := reports w; tasks := tasks w;
     files := fs; write_script := write_script w; write_log := write_log w;
     clock := clock w; net_script := net_script w; outbox := outbox w |}.

Definition with_write_script (sc : list write_outcome) (w : world) : world :=
  {| users := users w; reports := reports w; tasks := tasks w;
     files := files w; write_script := sc; write_log := write_log w;
     clock := clock w; net_script := net_script w; outbox := outbox w |}.

Definition with_net_script (sc : list bool) (w : world) : world :=
  {| users := users w; reports := reports w; tasks := tasks w;
     files := files w; write_script := write_script w; write_log := write_log w;
     clock := clock w; net_script := sc; outbox := outbox w |}.

Definition with_clock (c : list string) (w : world) : world :=
  {| users := users w; reports := reports w; tasks := tasks w;
     files := files w; write_script := write_script w; write_log := write_log w;
     clock := c; net_script := net_script w; outbox := outbox w |}.

(** *** Worlds for the examples *)

Definition example_report (text : string) : Report :=
  {| report_text := text; report_time := "2024-05-01T09:00:00" |}.

Definition example_task (title : string) (done : bool) : Task :=
  {| task_title := title; task_done := done; task_time := "2024-05-01T09:00:00" |}.

(** Three registered users; the first has a backlog, the second has written
    one report, the third keeps a steady pace. *)
Definition example_world : world :=
  set_tasks (fun _ =>
    [("101", [example_task "a" false; example_task "b" false; example_task "c" true;
              example_task "d" false; example_task "e" false]);
     ("103", [example_task "f" false])])
  (set_reports (fun _ =>
    [("101", map example_report ["r1"; "r2"; "r3"; "r4"; "r5"; "r6"; "r7"; "r8"; "r9"; "r10"]);
     ("102", [example_report "only one"]);
     ("103", map example_report ["s1"; "s2"; "s3"; "s4"; "s5"])])
  (set_users (fun _ => [("101", "Ali"); ("102", "Sara"); ("103", "Omid")])
     blank_world)).

(** ** The process: start-up and the dispatch of events *)

Section Process.
Context {R : PyRuntime}.

(** An assignment to one of the three module-level names. *)
Definition assign {V : Type} (decode : json -> option V)
    (store : V -> world -> world) (v : json) : M unit :=
  match decode v with
  | Some d => modify (store d)
  | None => raise OutsideModel
  end.

(** Lines 39 to 41: each of the three names is bound to what [load_json]
    returns for its file, in the order of the source. *)
Definition startup : M unit :=
  us <- load_json USERS_FILE (JObj []) ;;
  assign users_of_json (fun d => set_users (fun _ => d)) us ;;
  rs <- load_json REPORTS_FILE (JObj []) ;;
  assign reports_of_json (fun d => set_reports (fun _ => d)) rs ;;
  ts <- load_json TASKS_FILE (JObj []) ;;
  assign tasks_of_json (fun d => set_tasks (fun _ => d)) ts.

(** What the application is registered to react to (lines 179 and 186 to
    192): the five commands, a text message that is no command, which goes
    to [report] as well, and the job of the scheduler. The scheduler of line
    178 is a [BackgroundScheduler]: at midnight a worker thread calls
    [daily_summary()], which makes a coroutine that nobody awaits, so the
    body does not run then. [OnSummaryRun] is a run of the body, as when the
    coroutine is awaited. *)
Inductive event : Type :=
  | OnStart (update : Update)
  | OnReport (update : Update)
  | OnShow (update : Update)
  | OnTask (update : Update)
  | OnTip (update : Update)
  | OnText (update : Update)
  | OnMidnight
  | OnSummaryRun.

(** The world after one event. The callback runs to its end or to its first
    exception; the dispatcher survives the exception, and the mutations made
    before it stay. Events are handled one after another. *)
Definition handle (e : event) (w : world) : world :=
  match e with
  | OnStart update => fst (start update w)
  | OnReport update => fst (report update w)
  | OnShow update => fst (show_reports update w)
  | OnTask update => fst (add_task update w)
  | OnTip update => fst (tip_command update w)
  | OnText update => fst (report update w)
  | OnMidnight => w
  | OnSummaryRun => fst (daily_summary w)
  end.

Definition run_events (es : list event) (w : world) : world :=
  fold_left (fun w0 e => handle e w0) es w.

(** The files a callback opens for writing, read off its calls of
    [save_json]. *)
Definition written_by (e : event) : list string :=
  match e with
  | OnStart _ => [USERS_FILE]
  | OnReport _ | OnText _ => [USERS_FILE; REPORTS_FILE]
  | OnTask _ => [USERS_FILE; TASKS_FILE]
  | OnShow _ | OnTip _ | OnMidnight | OnSummaryRun => []
  end.

(** Each file of the data directory holds the text of its document. *)
Definition disk_mirrors_memory (w : world) : Prop :=
  files w !! USERS_FILE = Some (json_dumps (json_of_users (users w))) /\
  files w !! REPORTS_FILE = Some (json_dumps (json_of_reports (reports w))) /\
  files w !! TASKS_FILE = Some (json_dumps (json_of_tasks (tasks w))).

End Process.

(** No write to come fails. *)
Definition no_write_fault (w : world) : Prop :=
  Forall (fun o => o = WriteOk) (write_script w).

(** Every id that has a history of reports or of tasks is a key of [users]. *)
Definition histories_registered (w : world) : Prop :=
  forall uid,
    contains uid (reports w) = true \/ contains uid (tasks w) = true ->
    contains uid (users w) = true.

(** Nothing stored in [w] is changed or lost in [w']: every name of [users]
    is kept, and every history of [w] is the beginning of the history of
    the same id in [w']. *)
Definition memory_extends (w w' : world) : Prop :=
  (forall uid name, get uid (users w) = Some name -> get uid (users w') = Some name) /\
  (forall uid, get_or uid [] (reports w) `prefix_of` get_or uid [] (reports w')) /\
  (forall uid, get_or uid [] (tasks w) `prefix_of` get_or uid [] (tasks w')).

(** Between [w] and [w'] only files among [paths] were opened for writing,
    and none of them twice: the paths of the write attempts added to the log
    are all among [paths] and pairwise different. *)
Definition writes_within (paths : list string) (w w' : world) : Prop :=
  (forall p, p ∉ paths -> files w' !! p = files w !! p) /\
  exists added : list (string * write_outcome),
    write_log w' = (write_log w ++ added)%list /\
    Forall (fun x => fst x ∈ paths) added /\
    NoDup (added.*1).

(** * Properties *)

(** ** Dictionaries *)

Section DictFacts.
Context {V : Type}.
Implicit Types (k : string) (v : V) (d : dict V).

Lemma get_set_same k v d : get k (set k v d) = Some v.
Proof.
  induction d as [|[k' v'] d IH]; simpl.
  - by rewrite String.eqb_refl.
  - destruct (String.eqb k' k) eqn:E; simpl; rewrite E; auto.
Qed.

Lemma get_set_other k k' v d : k' <> k -> get k' (set k v d) = get k' d.
Proof.
  intros Hne. induction d as [|[k0 v0] d IH]; simpl.
  - destruct (String.eqb k k') eqn:E; [|done].
    apply String.eqb_eq in E. congruence.
  - destruct (String.eqb k0 k) eqn:E; simpl; [|by rewrite IH].
    apply String.eqb_eq in E. subst k0.
    destruct (String.eqb k k') eqn:E'; [|done].
    apply String.eqb_eq in E'. congruence.
Qed.

Lemma contains_set k v d : contains k (set k v d) = true.
Proof. unfold contains. by rewrite get_set_same. Qed.

Lemma get_or_set_same k v dflt d : get_or k dflt (set k v d) = v.
Proof. unfold get_or. by rewrite get_set_same. Qed.

Lemma get_or_set_other k k' v dflt d :
  k' <> k -> get_or k' dflt (set k v d) = get_or k' dflt d.
Proof. intros. unfold get_or. by rewrite get_set_other. Qed.

(** A new key goes to the end of the iteration order. *)
Lemma set_absent k v d : contains k d = false -> set k v d = (d ++ [(k, v)])%list.
Proof.
  unfold contains. induction d as [|[k' v'] d IH]; simpl; [done|].
  destruct (String.eqb k' k); [done|]. intros H. by rewrite IH.
Qed.

(** Assigning to a present key keeps the keys and their order. *)
Lemma keys_set_present k v d : contains k d = true -> keys (set k v d) = keys d.
Proof.
  unfold contains, keys. induction d as [|[k' v'] d IH]; simpl; [done|].
  destruct (String.eqb k' k) eqn:E; simpl; [done|]. intros H. by rewrite IH.
Qed.

Lemma set_set k v1 v2 d : set k v2 (set k v1 d) = set k v2 d.
Proof.
  induction d as [|[k' v'] d IH]; simpl.
  - by rewrite String.eqb_refl.
  - destruct (String.eqb k' k) eqn:E; simpl; rewrite E; [done|]. by rewrite IH.
Qed.

Lemma contains_true_get k d : contains k d = true -> exists v, get k d = Some v.
Proof. unfold contains. destruct (get k d); eauto; discriminate. Qed.

Lemma contains_false_get k d : contains k d = false -> get k d = None.
Proof. unfold contains. by destruct (get k d). Qed.
End DictFacts.

(** ** The durable store *)

Section StoreFacts.
Context {R : PyRuntime}.

Lemma save_json_ok w path data :
  hd WriteOk (write_script w) = WriteOk ->
  save_json path data w = (write_attempt path WriteOk (Some (json_dumps data)) w, Ok tt).
Proof. intros H. unfold save_json. by rewrite H. Qed.

(** A save leaves the documents in memory, the clock and the transport as
    they are. *)
Lemma save_json_frame w path data :
  let w' := fst (save_json path data w) in
  users w' = users w /\ reports w' = reports w /\ tasks w' = tasks w /\
  clock w' = clock w /\ net_script w' = net_script w /\ outbox w' = outbox w.
Proof. unfold save_json. by destruct (hd WriteOk (write_script w)). Qed.

(** Every call of [save_json] is one write attempt on [path], whose outcome
    is the head of the script. *)
Lemma save_json_log w path data :
  write_log (fst (save_json path data w)) =
    (write_log w ++ [(path, hd WriteOk (write_script w))])%list.
Proof. unfold save_json. by destruct (hd WriteOk (write_script w)). Qed.

Lemma load_json_absent w path :
  files w !! path = None ->
  hd WriteOk (write_script w) = WriteOk ->
  load_json path (JObj []) w =
    (write_attempt path WriteOk (Some (json_dumps (JObj []))) w, Ok (JObj [])).
Proof.
  intros Hnone Hok.
  unfold load_json, bind, path_exists, gets, try_except, read_json. simpl.
  rewrite Hnone. simpl. rewrite (save_json_ok _ _ _ Hok). simpl.
  by rewrite lookup_insert_eq, json_loads_dumps_empty.
Qed.

Lemma load_json_unparseable w path s :
  files w !! path = Some s ->
  json_loads s = None ->
  hd WriteOk (write_script w) = WriteOk ->
  load_json path (JObj []) w =
    (write_attempt path WriteOk (Some (json_dumps (JObj []))) w, Ok (JObj [])).
Proof.
  intros Hsome Hbad Hok.
  unfold load_json, bind, path_exists, gets, try_except, read_json, ret. simpl.
  rewrite Hsome. simpl. rewrite Hsome, Hbad.
  by rewrite (save_json_ok _ _ _ Hok).
Qed.

(** A resource that parses is returned as it is, and nothing is written. *)
Lemma load_json_valid w path s v :
  files w !! path = Some s ->
  json_loads s = Some v ->
  forall default, load_json path default w = (w, Ok v).
Proof.
  intros Hsome Hgood default.
  unfold load_json, bind, path_exists, gets, try_except, read_json, ret. simpl.
  rewrite Hsome. simpl. by rewrite Hsome, Hgood.
Qed.

(** When the write of the empty document itself fails, the error of that
    write reaches the caller of [load_json]. *)
Lemma load_json_write_fault w path :
  (files w !! path = None \/
   exists s, files w !! path = Some s /\ json_loads s = None) ->
  hd WriteOk (write_script w) <> WriteOk ->
  snd (load_json path (JObj []) w) = Raise OSError.
Proof.
  intros Hres Hfault.
  unfold load_json, bind, path_exists, gets, try_except, read_json, ret, save_json.
  simpl. destruct Hres as [Hnone | (s & Hsome & Hbad)].
  - rewrite Hnone. simpl. by destruct (hd WriteOk (write_script w)).
  - rewrite Hsome. simpl. rewrite Hsome, Hbad.
    by destruct (hd WriteOk (write_script w)).
Qed.
(** The run of [load_json] whose recovery write fails. *)
Lemma load_json_fault_run w path :
  (files w !! path = None \/
   exists s, files w !! path = Some s /\ json_loads s = None) ->
  hd WriteOk (write_script w) <> WriteOk ->
  load_json path (JObj []) w =
    (write_attempt path (hd WriteOk (write_script w))
       match hd WriteOk (write_script w) with
       | WriteFault n => Some (PyStr.take_chars n (json_dumps (JObj [])))
       | _ => None
       end w,
     Raise OSError).
Proof.
  intros Hres Hfault.
  unfold load_json, bind, path_exists, gets, try_except, read_json, ret, save_json.
  simpl. destruct Hres as [Hnone | (s & Hsome & Hbad)].
  - rewrite Hnone. simpl. by destruct (hd WriteOk (write_script w)).
  - rewrite Hsome. simpl. rewrite Hsome, Hbad.
    by destruct (hd WriteOk (write_script w)).
Qed.

End StoreFacts.

Section StoreClaims.
Context {R : PyRuntime}.
Import PyStr.

(** C3, as the code has it. [load_json] treats an absent resource and a
    resource that does not parse alike: in both cases it attempts one write
    of the empty document, and the outcome of that write decides the rest.
    When the write goes through, the resource holds the text of [{}] and
    [{}] is returned to the caller. When the write fails, its error is
    raised to the caller: a refused open leaves the data directory as it
    was, a write cut after [n] characters leaves those characters. *)
Theorem load_json_absent_or_unparseable (w : world) (path : string) :
  (files w !! path = None \/
   exists s, files w !! path = Some s /\ json_loads s = None) ->
  let w' := fst (load_json path (JObj []) w) in
  let r := snd (load_json path (JObj []) w) in
  write_log w' = (write_log w ++ [(path, hd WriteOk (write_script w))])%list /\
  match hd WriteOk (write_script w) with
  | WriteOk =>
      r = Ok (JObj []) /\ files w' = <[path := json_dumps (JObj [])]> (files w)
  | OpenDenied =>
      r = Raise OSError /\ files w' = files w
  | WriteFault n =>
      r = Raise OSError /\
      files w' = <[path := take_chars n (json_dumps (JObj []))]> (files w)
  end.
Proof.
  intros Hres. cbv zeta.
  destruct (hd WriteOk (write_script w)) as [| |n] eqn:Hw.
  - destruct Hres as [Hnone | (s & Hsome & Hbad)].
    + by rewrite (load_json_absent _ _ Hnone Hw).
    + by rewrite (load_json_unparseable _ _ _ Hsome Hbad Hw).
  - rewrite (load_json_fault_run _ _ Hres) by (by rewrite Hw). by rewrite Hw.
  - rewrite (load_json_fault_run _ _ Hres) by (by rewrite Hw). by rewrite Hw.
Qed.

(** C2, as the code has it. [save_json] writes the resource in place. The
    outcome of the write decides both the answer and the resource: a write
    that goes through leaves the new text; a refused open raises and leaves
    the resource as it was; a write that stops after [n] characters raises
    and leaves those [n] characters in place of what was there. The
    documents in memory are not touched. A later [load_json] then reads
    the truncated text: it returns what that text parses to; when it does
    not parse, [load_json] attempts to write [{}] over it, and returns
    [{}] if that write goes through and raises its error if it fails. *)
Theorem save_json_writes_in_place (w : world) (path : string) (data : json) :
  let w' := fst (save_json path data w) in
  let r := snd (save_json path data w) in
  match hd WriteOk (write_script w) with
  | WriteOk =>
      r = Ok tt /\ files w' = <[path := json_dumps data]> (files w)
  | OpenDenied =>
      r = Raise OSError /\ files w' = files w
  | WriteFault n =>
      let written := take_chars n (json_dumps data) in
      r = Raise OSError /\
      files w' = <[path := written]> (files w) /\
      (forall v, json_loads written = Some v ->
         load_json path (JObj []) w' = (w', Ok v)) /\
      (json_loads written = None ->
       match hd WriteOk (write_script w') with
       | WriteOk =>
           snd (load_json path (JObj []) w') = Ok (JObj []) /\
           files (fst (load_json path (JObj []) w')) =
             <[path := json_dumps (JObj [])]> (files w)
       | OpenDenied =>
           snd (load_json path (JObj []) w') = Raise OSError /\
           files (fst (load_json path (JObj []) w')) =
             <[path := written]> (files w)
       | WriteFault m =>
           snd (load_json path (JObj []) w') = Raise OSError /\
           files (fst (load_json path (JObj []) w')) =
             <[path := take_chars m (json_dumps (JObj []))]> (files w)
       end)
  end /\
  users w' = users w /\ reports w' = reports w /\ tasks w' = tasks w.
Proof.
  simpl. split; [|by destruct (save_json_frame w path data) as (?&?&?&_)].
  unfold save_json. destruct (hd WriteOk (write_script w)) as [| |n]; simpl; auto.
  split; [done|]. split; [done|]. split.
  - intros v Hv. eapply load_json_valid; [|exact Hv]. simpl. apply lookup_insert_eq.
  - intros Hbad.
    set (w1 := write_attempt path (WriteFault n)
                 (Some (take_chars n (json_dumps data))) w) in *.
    assert (Hsome : files w1 !! path = Some (take_chars n (json_dumps data)))
      by (simpl; apply lookup_insert_eq).
    assert (Hres : files w1 !! path = None \/
                   exists s, files w1 !! path = Some s /\ json_loads s = None)
      by (right; eauto).
    change (tail (write_script w)) with (write_script w1).
    destruct (hd WriteOk (write_script w1)) as [| |m] eqn:Hw.
    + rewrite (load_json_unparseable _ _ _ Hsome Hbad Hw). simpl.
      split; [done|]. apply insert_insert_eq.
    + rewrite (load_json_fault_run _ _ Hres) by (by rewrite Hw).
      rewrite Hw. by simpl.
    + rewrite (load_json_fault_run _ _ Hres) by (by rewrite Hw).
      rewrite Hw. simpl. split; [done|]. apply insert_insert_eq.
Qed.
End StoreClaims.

(** ** The activity repository *)

Section RepositoryFacts.
Context {R : PyRuntime}.
Import PyStr.

Lemma ensure_user_present w user_id name :
  contains (py_str user_id) (users w) = true ->
  ensure_user user_id name w = (w, Ok tt).
Proof.
  intros H. unfold ensure_user, bind, gets, ret. simpl. by rewrite H.
Qed.

Lemma ensure_user_absent w user_id name :
  contains (py_str user_id) (users w) = false ->
  ensure_user user_id name w =
    save_json USERS_FILE
      (json_of_users (users w ++ [(py_str user_id, name)])%list)
      (set_users (fun us => (us ++ [(py_str user_id, name)])%list) w).
Proof.
  intros H. unfold ensure_user, bind, gets, modify, ret. simpl. rewrite H. simpl.
  unfold set_users. simpl. by rewrite (set_absent _ _ _ H).
Qed.

(** What [ensure_user] does to [users], whatever happens to the write. *)
Lemma ensure_user_users w user_id name :
  users (fst (ensure_user user_id name w)) =
    if contains (py_str user_id) (users w) then users w
    else (users w ++ [(py_str user_id, name)])%list.
Proof.
  destruct (contains (py_str user_id) (users w)) eqn:E.
  - by rewrite (ensure_user_present _ _ _ E).
  - rewrite (ensure_user_absent _ _ _ E).
    match goal with
    | |- users (fst (save_json ?p ?d ?w0)) = _ =>
        by destruct (save_json_frame w0 p d) as (-> & _)
    end.
Qed.

(** Whatever happens to the write, the id is registered afterwards. *)
Lemma ensure_user_registered w user_id name :
  contains (py_str user_id) (users (fst (ensure_user user_id name w))) = true.
Proof.
  destruct (contains (py_str user_id) (users w)) eqn:E.
  - by rewrite (ensure_user_present _ _ _ E).
  - rewrite (ensure_user_absent _ _ _ E).
    destruct (save_json_frame
                (set_users (fun us => (us ++ [(py_str user_id, name)])%list) w)
                USERS_FILE
                (json_of_users (users w ++ [(py_str user_id, name)])%list))
      as (Hu & _).
    rewrite Hu. simpl. rewrite <- (set_absent _ _ _ E). apply contains_set.
Qed.

(** C5. [ensure_user] inserts the name under [str(user_id)] only when the
    key is absent, at the end of [users], and then attempts one write of
    [users]; when the key is present the world is left as it is, so no
    write is attempted. A second call with the same id, whatever the name,
    is therefore a no-op: [users] keeps the name of the first call and the
    write log does not grow. *)
Theorem ensure_user_idempotent (w : world) (user_id : id_arg) (name name' : string) :
  let uid := py_str user_id in
  let w1 := fst (ensure_user user_id name w) in
  (contains uid (users w) = false ->
     users w1 = (users w ++ [(uid, name)])%list /\
     write_log w1 =
       (write_log w ++ [(USERS_FILE, hd WriteOk (write_script w))])%list /\
     (hd WriteOk (write_script w) = WriteOk ->
        files w1 !! USERS_FILE = Some (json_dumps (json_of_users (users w1))))) /\
  (contains uid (users w) = true -> ensure_user user_id name w = (w, Ok tt)) /\
  ensure_user user_id name' w1 = (w1, Ok tt) /\
  get uid (users w1) = Some (default name (get uid (users w))).
Proof.
  simpl. split; [|split; [|split]].
  - intros E. rewrite (ensure_user_absent _ _ _ E).
    set (w0 := set_users _ w). set (d := json_of_users _).
    destruct (save_json_frame w0 USERS_FILE d) as (Hu & _).
    split; [exact Hu|]. split; [by rewrite save_json_log|].
    intros Hok. rewrite Hu.
    rewrite (save_json_ok w0 USERS_FILE d Hok). simpl. apply lookup_insert_eq.
  - apply ensure_user_present.
  - apply ensure_user_present, ensure_user_registered.
  - destruct (contains (py_str user_id) (users w)) eqn:E.
    + rewrite (ensure_user_present _ _ _ E). simpl.
      destruct (contains_true_get _ _ E) as [v Hv]. by rewrite Hv.
    + rewrite (ensure_user_absent _ _ _ E).
      set (w0 := set_users _ w). set (d := json_of_users _).
      destruct (save_json_frame w0 USERS_FILE d) as (Hu & _). rewrite Hu.
      simpl. rewrite <- (set_absent _ _ _ E), get_set_same.
      by rewrite (contains_false_get _ _ E).
Qed.
End RepositoryFacts.

Section HistoryFacts.
Context {R : PyRuntime}.
Import PyStr.

(** [append_report] never fails on the lookup [reports[uid]]: it amounts to
    one assignment in memory followed by the save. *)
Lemma append_report_run w uid text :
  let rs := set uid (get_or uid [] (reports w) ++ [new_report text w])%list (reports w) in
  append_report uid text w =
    save_json REPORTS_FILE (json_of_reports rs) (set_reports (fun _ => rs) (tick w)).
Proof.
  simpl. unfold append_report, bind, gets, modify, ret, getitem, now_isoformat.
  simpl. destruct (contains uid (reports w)) eqn:E; simpl.
  - destruct (contains_true_get _ _ E) as [l Hl].
    unfold get_or. rewrite Hl. reflexivity.
  - rewrite get_set_same. unfold ret, set_reports, set_tasks, tick. simpl.
    rewrite set_set. unfold get_or. rewrite (contains_false_get _ _ E).
    reflexivity.
Qed.

Lemma append_task_run w uid text :
  let ts := set uid (get_or uid [] (tasks w) ++ [new_task text w])%list (tasks w) in
  append_task uid text w =
    save_json TASKS_FILE (json_of_tasks ts) (set_tasks (fun _ => ts) (tick w)).
Proof.
  simpl. unfold append_task, bind, gets, modify, ret, getitem, now_isoformat.
  simpl. destruct (contains uid (tasks w)) eqn:E; simpl.
  - destruct (contains_true_get _ _ E) as [l Hl].
    unfold get_or. rewrite Hl. reflexivity.
  - rewrite get_set_same. unfold ret, set_reports, set_tasks, tick. simpl.
    rewrite set_set. unfold get_or. rewrite (contains_false_get _ _ E).
    reflexivity.
Qed.

Lemma append_report_reports w uid text :
  reports (fst (append_report uid text w)) =
    set uid (get_or uid [] (reports w) ++ [new_report text w])%list (reports w).
Proof.
  rewrite append_report_run.
  match goal with
  | |- reports (fst (save_json ?p ?d ?w0)) = _ =>
      destruct (save_json_frame w0 p d) as (_ & Hr & _); rewrite Hr
  end.
  reflexivity.
Qed.

Lemma append_task_tasks w uid text :
  tasks (fst (append_task uid text w)) =
    set uid (get_or uid [] (tasks w) ++ [new_task text w])%list (tasks w).
Proof.
  rewrite append_task_run.
  match goal with
  | |- tasks (fst (save_json ?p ?d ?w0)) = _ =>
      destruct (save_json_frame w0 p d) as (_ & _ & Ht & _); rewrite Ht
  end.
  reflexivity.
Qed.

(** One append: the history of [uid] grows by one element at its end, the
    history of every other id is as it was. *)
Lemma append_report_history w uid text uid' :
  get_or uid' [] (reports (fst (append_report uid text w))) =
    if String.eqb uid' uid
    then (get_or uid [] (reports w) ++ [new_report text w])%list
    else get_or uid' [] (reports w).
Proof.
  rewrite append_report_reports.
  destruct (String.eqb uid' uid) eqn:E.
  - apply String.eqb_eq in E. subst. apply get_or_set_same.
  - apply String.eqb_neq in E. by apply get_or_set_other.
Qed.

(** C6. After the calls [append_report uid t1], ..., [append_report uid tN],
    each run to its end whether or not its save fails, the history of
    [uid] is the history before followed by exactly N new elements whose
    texts are [t1], ..., [tN] in call order; the elements stored before
    are still there, unchanged and in place. *)
Theorem report_history_append_only (w : world) (uid : string) (texts : list string) :
  let w' := fold_left (fun w0 t => fst (append_report uid t w0)) texts w in
  exists added : list Report,
    get_or uid [] (reports w') = (get_or uid [] (reports w) ++ added)%list /\
    map report_text added = texts /\
    length (get_or uid [] (reports w')) =
      length (get_or uid [] (reports w)) + length texts.
Proof.
  simpl. revert w. induction texts as [|t texts IH]; intros w; simpl.
  - exists []. rewrite app_nil_r. split; [done|]. split; [done|]. lia.
  - destruct (IH (fst (append_report uid t w))) as (added & Hadd & Htexts & Hlen).
    exists (new_report t w :: added).
    rewrite append_report_history, String.eqb_refl in Hadd, Hlen.
    rewrite Hlen, Hadd, <- app_assoc. split; [done|]. simpl. rewrite Htexts.
    split; [done|]. rewrite length_app. simpl. lia.
Qed.
End HistoryFacts.

(** ** The insight engine *)

Section TipFacts.

Lemma tips_distinct :
  TIP_BACKLOG <> TIP_LOW_VOLUME /\ TIP_BACKLOG <> TIP_STEADY /\
  TIP_LOW_VOLUME <> TIP_STEADY.
Proof. repeat split; discriminate. Qed.

(** [generate_tip] reads the world and leaves it as it is; its value is a
    function of the two counts. The word tally of the last five reports is
    computed and dropped. *)
Lemma generate_tip_run w user_id :
  generate_tip user_id w =
    (w, Ok (tip_decision (pending_count w (py_str user_id))
                         (volume w (py_str user_id)))).
Proof. reflexivity. Qed.

(** C1. The tip is decided by three rules in order: more than 3 tasks with
    [done] false give the backlog text, whatever the number of reports;
    otherwise fewer than 2 reports give the low-volume text; otherwise the
    steady-pace text. The three texts differ, and the rows of the table
    come out as stated: (4, 10) backlog, (0, 1) low-volume, (1, 5)
    steady-pace. *)
Theorem generate_tip_decision_table (w : world) (user_id : id_arg) :
  let uid := py_str user_id in
  (3 < pending_count w uid ->
     generate_tip user_id w = (w, Ok TIP_BACKLOG)) /\
  (pending_count w uid <= 3 -> volume w uid < 2 ->
     generate_tip user_id w = (w, Ok TIP_LOW_VOLUME)) /\
  (pending_count w uid <= 3 -> 2 <= volume w uid ->
     generate_tip user_id w = (w, Ok TIP_STEADY)) /\
  generate_tip user_id w =
    (w, Ok (tip_decision (pending_count w uid) (volume w uid))) /\
  tip_decision 4 10 = TIP_BACKLOG /\
  tip_decision 0 1 = TIP_LOW_VOLUME /\
  tip_decision 1 5 = TIP_STEADY /\
  TIP_BACKLOG <> TIP_LOW_VOLUME /\ TIP_BACKLOG <> TIP_STEADY /\
  TIP_LOW_VOLUME <> TIP_STEADY.
Proof.
  simpl. rewrite generate_tip_run. unfold tip_decision.
  split; [|split; [|split; [|split; [done|]]]].
  - intros H. apply Nat.ltb_lt in H. by rewrite H.
  - intros Hp Hv. apply Nat.ltb_ge in Hp. apply Nat.ltb_lt in Hv. by rewrite Hp, Hv.
  - intros Hp Hv. apply Nat.ltb_ge in Hp. apply Nat.ltb_ge in Hv. by rewrite Hp, Hv.
  - split; [done|]. split; [done|]. split; [done|]. apply tips_distinct.
Qed.

(** C7. For an id that is a key of neither [reports] nor [tasks],
    [generate_tip] returns (it raises nothing and changes nothing), both
    counts are 0, and the tip is the low-volume text. *)
Theorem generate_tip_unknown_id (w : world) (user_id : id_arg) :
  get (py_str user_id) (reports w) = None ->
  get (py_str user_id) (tasks w) = None ->
  generate_tip user_id w = (w, Ok TIP_LOW_VOLUME) /\
  pending_count w (py_str user_id) = 0 /\
  volume w (py_str user_id) = 0.
Proof.
  intros Hr Ht. rewrite generate_tip_run.
  unfold pending_count, volume, get_or. by rewrite Hr, Ht.
Qed.
End TipFacts.

(** ** Name resolution and the show command *)

Section ShowFacts.
Context {R : PyRuntime}.
Import PyStr.

Lemma resolve_first_match (l1 l2 : list (string * string)) uid name :
  Forall (fun p => snd p <> name) l1 ->
  resolve_id_by_name (l1 ++ (uid, name) :: l2) name = Some uid.
Proof.
  induction 1 as [|[k n] l1 Hn _ IH]; simpl.
  - by rewrite String.eqb_refl.
  - simpl in Hn. apply String.eqb_neq in Hn. by rewrite Hn.
Qed.

Lemma resolve_some_inv (us : list (string * string)) uid name :
  resolve_id_by_name us name = Some uid ->
  exists l1 l2, us = (l1 ++ (uid, name) :: l2)%list /\
                Forall (fun p => snd p <> name) l1.
Proof.
  induction us as [|[k n] us IH]; simpl; [discriminate|].
  destruct (String.eqb n name) eqn:E.
  - intros [= <-]. apply String.eqb_eq in E. subst n.
    exists [], us. by split.
  - intros H. destruct (IH H) as (l1 & l2 & -> & Hl1).
    exists ((k, n) :: l1), l2. split; [done|].
    constructor; [|done]. simpl. by apply String.eqb_neq.
Qed.

Lemma resolve_none_iff (us : list (string * string)) name :
  resolve_id_by_name us name = None <-> Forall (fun p => snd p <> name) us.
Proof.
  induction us as [|[k n] us IH]; simpl.
  - split; [constructor|done].
  - destruct (String.eqb n name) eqn:E.
    + apply String.eqb_eq in E. subst n. split; [discriminate|].
      intros H. inversion H; subst. simpl in *. congruence.
    + apply String.eqb_neq in E. rewrite IH. split.
      * intros H. by constructor.
      * intros H. by inversion H.
Qed.

(** C9. The lookup of [show_reports] returns the key of the first item of
    [users], in iteration order, whose name is equal to the name looked
    for, character by character; it finds nothing exactly when no item has
    that name. So of two ids that carry the name, the one that stands
    first wins, and since [ensure_user] puts a new id at the end of
    [users], that is the id registered first. *)
Theorem resolve_id_by_name_first_match (us : dict string) (name : string) :
  (forall uid,
     resolve_id_by_name (items us) name = Some uid <->
     exists l1 l2, us = (l1 ++ (uid, name) :: l2)%list /\
                   Forall (fun p => snd p <> name) l1) /\
  (resolve_id_by_name (items us) name = None <->
     Forall (fun p => snd p <> name) us) /\
  (forall (w : world) (a b : id_arg),
     users w = us ->
     resolve_id_by_name (items us) name = None ->
     contains (py_str a) us = false ->
     let w1 := fst (ensure_user a name w) in
     let w2 := fst (ensure_user b name w1) in
     resolve_id_by_name (items (users w2)) name = Some (py_str a)).
Proof.
  unfold items. split; [|split].
  - intros uid. split.
    + apply resolve_some_inv.
    + intros (l1 & l2 & -> & Hl1). by apply resolve_first_match.
  - apply resolve_none_iff.
  - intros w a b Hus Hnone Ha.
    set (w1 := fst (ensure_user a name w)).
    assert (Hu1 : users w1 = (us ++ [(py_str a, name)])%list).
    { unfold w1. by rewrite ensure_user_users, Hus, Ha. }
    rewrite ensure_user_users, Hu1.
    destruct (contains (py_str b) _).
    + apply resolve_first_match. by apply resolve_none_iff.
    + rewrite <- app_assoc. apply resolve_first_match. by apply resolve_none_iff.
Qed.
End ShowFacts.

(** ** The daily broadcast *)

Section BroadcastFacts.
Context {R : PyRuntime}.
Import PyStr.

Lemma generate_summary_run w uid name :
  generate_summary uid name w = (w, Ok (summary_text w uid name)).
Proof. reflexivity. Qed.

(** The text for a user depends on the documents only. *)
Lemma summary_text_frame w w' uid name :
  reports w' = reports w -> tasks w' = tasks w ->
  summary_text w' uid name = summary_text w uid name.
Proof.
  intros Hr Ht. unfold summary_text, generate_summary, generate_tip, bind, gets, ret.
  simpl. by rewrite Hr, Ht.
Qed.

Lemma after_delivery_frame w item :
  users (after_delivery w item) = users w /\
  reports (after_delivery w item) = reports w /\
  tasks (after_delivery w item) = tasks w /\
  files (after_delivery w item) = files w /\
  write_log (after_delivery w item) = write_log w.
Proof. unfold after_delivery. by destruct (int_of_str (fst item)). Qed.

(** The three ways an iteration can go. *)
Lemma after_delivery_accepted w item chat_id rest :
  int_of_str (fst item) = Some chat_id ->
  net_script w = true :: rest ->
  after_delivery w item =
    net_attempt (Some (chat_id, summary_text w (fst item) (snd item))) w.
Proof. intros Hi Hn. unfold after_delivery. by rewrite Hi, Hn. Qed.

Lemma after_delivery_refused w item chat_id rest :
  int_of_str (fst item) = Some chat_id ->
  net_script w = false :: rest ->
  after_delivery w item = net_attempt None w.
Proof. intros Hi Hn. unfold after_delivery. by rewrite Hi, Hn. Qed.

Lemma after_delivery_skipped w item :
  int_of_str (fst item) = None -> after_delivery w item = w.
Proof. intros Hi. unfold after_delivery. by rewrite Hi. Qed.

(** One iteration of the loop: the [try] swallows the error of [int] and the
    error of the transport alike, and the iteration ends normally. *)
Lemma daily_summary_iteration w item :
  (text <- generate_summary (fst item) (snd item) ;;
   try_except (chat_id <- py_int (fst item) ;; send_message chat_id text) (ret tt)) w
  = (after_delivery w item, Ok tt).
Proof.
  unfold bind at 1. rewrite generate_summary_run.
  unfold try_except, bind, py_int, send_message, after_delivery, ret, raise.
  destruct (int_of_str (fst item)) as [chat_id|]; [|done].
  by destruct (hd true (net_script w)).
Qed.

Lemma for_each_total {A : Type} (step : world -> A -> world) (body : A -> M unit) l :
  (forall w x, body x w = (step w x, Ok tt)) ->
  forall w, for_each l body w = (fold_left step l w, Ok tt).
Proof.
  intros Hbody. induction l as [|x l IH]; intros w; simpl; [done|].
  unfold bind. by rewrite Hbody, IH.
Qed.

(** The whole run, as a fold over the items of [users]. *)
Lemma daily_summary_run w :
  daily_summary w = (fold_left after_delivery (items (users w)) w, Ok tt).
Proof.
  unfold daily_summary, bind, gets. simpl.
  apply (for_each_total after_delivery). intros w0 x. apply daily_summary_iteration.
Qed.

Lemma fold_after_delivery_frame l w :
  let w' := fold_left after_delivery l w in
  users w' = users w /\ reports w' = reports w /\ tasks w' = tasks w /\
  files w' = files w /\ write_log w' = write_log w.
Proof.
  simpl. revert w. induction l as [|x l IH]; intros w; simpl; [done|].
  destruct (IH (after_delivery w x)) as (-> & -> & -> & -> & ->).
  apply after_delivery_frame.
Qed.

(** The messages one pass over [l] tries to send, with the texts of [w0]. *)
Lemma fold_after_delivery_outbox w0 l w :
  reports w = reports w0 -> tasks w = tasks w0 ->
  exists delivered,
    outbox (fold_left after_delivery l w) = (outbox w ++ delivered)%list /\
    sublist delivered
      (omap (fun item : string * string =>
               match int_of_str (fst item) with
               | Some chat_id => Some (chat_id, summary_text w0 (fst item) (snd item))
               | None => None
               end) l).
Proof.
  revert w. induction l as [|x l IH]; intros w Hr Ht; simpl.
  - exists []. by rewrite app_nil_r.
  - destruct (after_delivery_frame w x) as (_ & Hr' & Ht' & _).
    destruct (IH (after_delivery w x)) as (delivered & Hout & Hsub);
      [congruence | congruence |].
    rewrite Hout. unfold after_delivery.
    destruct (int_of_str (fst x)) as [chat_id|]; [|by exists delivered].
    rewrite (summary_text_frame w0 w) by done.
    destruct (hd true (net_script w)); simpl.
    + exists ((chat_id, summary_text w0 (fst x) (snd x)) :: delivered).
      rewrite <- app_assoc. split; [done|]. by constructor.
    + exists delivered. split; [done|]. by constructor.
Qed.

(** With a transport that accepts everything, every attempt is delivered. *)
Lemma fold_after_delivery_no_fault w0 l w :
  reports w = reports w0 -> tasks w = tasks w0 ->
  Forall (fun ok => ok = true) (net_script w) ->
  outbox (fold_left after_delivery l w) =
    (outbox w ++
     omap (fun item : string * string =>
             match int_of_str (fst item) with
             | Some chat_id => Some (chat_id, summary_text w0 (fst item) (snd item))
             | None => None
             end) l)%list.
Proof.
  revert w. induction l as [|x l IH]; intros w Hr Ht Hnet; simpl.
  - by rewrite app_nil_r.
  - destruct (after_delivery_frame w x) as (_ & Hr' & Ht' & _).
    rewrite IH; [| congruence | congruence |].
    + unfold after_delivery.
      destruct (int_of_str (fst x)) as [chat_id|]; [|done].
      rewrite (summary_text_frame w0 w) by done.
      assert (hd true (net_script w) = true) as ->.
      { destruct Hnet; [done|]. simpl. done. }
      simpl. by rewrite <- app_assoc.
    + unfold after_delivery. destruct (int_of_str (fst x)); [|done].
      simpl. destruct Hnet; simpl; [constructor | done].
Qed.
(** The run, exactly: every attempt meets its own outcome of the script. *)
Lemma fold_after_delivery_accepted w0 l w :
  reports w = reports w0 -> tasks w = tasks w0 ->
  let ms :=
    omap (fun item : string * string =>
            match int_of_str (fst item) with
            | Some chat_id => Some (chat_id, summary_text w0 (fst item) (snd item))
            | None => None
            end) l in
  outbox (fold_left after_delivery l w) = (outbox w ++ accepted ms (net_script w))%list /\
  net_script (fold_left after_delivery l w) = drop (length ms) (net_script w).
Proof.
  cbv zeta. revert w. induction l as [|x l IH]; intros w Hr Ht.
  - simpl. by rewrite app_nil_r, drop_0.
  - cbn [fold_left omap list_omap]. unfold after_delivery at 2 4.
    destruct (int_of_str (fst x)) as [chat_id|] eqn:Hint; [|by apply IH].
    rewrite (summary_text_frame w0 w) by done.
    match goal with
    | |- context [fold_left after_delivery l ?w1] =>
        destruct (IH w1) as [Hout Hnet]; [done | done |]
    end.
    rewrite Hout, Hnet. simpl.
    destruct (net_script w) as [|[] net]; simpl;
      rewrite <- ?app_assoc; by rewrite ?drop_nil.
Qed.

Lemma accepted_elem {A : Type} (ms : list A) (net : list bool) (i : nat) (m : A) :
  ms !! i = Some m ->
  default true (net !! i) = true ->
  m ∈ accepted ms net.
Proof.
  revert net i. induction ms as [|m0 ms IH]; intros net i Hm Hok; [done|].
  destruct i as [|i]; simpl in Hm.
  - injection Hm as ->. destruct net as [|ok net]; simpl in *; [by left|].
    subst ok. by left.
  - destruct net as [|ok net]; simpl in *.
    + right. by apply (IH [] i).
    + destruct ok; [right|]; by apply (IH net i).
Qed.

End BroadcastFacts.

Section BroadcastClaims.
Context {R : PyRuntime}.

(** C4. A run of [daily_summary] ends normally in every world: an error of
    one delivery, raised by [int] on the key or by the transport, is caught
    in that iteration and the loop goes on. The run leaves the documents as
    they are. For every [users], what is delivered is exactly the attempts
    the transport takes, one attempt per user in the order of [users], each
    meeting its own outcome whatever became of the attempts before it: an
    attempt that is taken is delivered even after failures, nobody is
    served twice and nothing is retried. With three users whose second
    delivery raises, the first and the third user each receive their
    summary, once. *)
Theorem daily_summary_isolates_failures (w : world) :
  let w' := fst (daily_summary w) in
  snd (daily_summary w) = Ok tt /\
  users w' = users w /\ reports w' = reports w /\ tasks w' = tasks w /\
  (exists delivered,
     outbox w' = (outbox w ++ delivered)%list /\ sublist delivered (attempts w)) /\
  (Forall (fun ok => ok = true) (net_script w) ->
     outbox w' = (outbox w ++ attempts w)%list) /\
  (forall u1 n1 u2 n2 u3 n3 c1 c3 rest,
     users w = [(u1, n1); (u2, n2); (u3, n3)] ->
     int_of_str u1 = Some c1 ->
     int_of_str u3 = Some c3 ->
     (int_of_str u2 = None /\ net_script w = true :: true :: rest) \/
     ((exists c2, int_of_str u2 = Some c2) /\
      net_script w = true :: false :: true :: rest) ->
     outbox w' =
       (outbox w ++ [(c1, summary_text w u1 n1); (c3, summary_text w u3 n3)])%list /\
     net_script w' = rest) /\
  outbox w' = (outbox w ++ accepted (attempts w) (net_script w))%list /\
  net_script w' = drop (length (attempts w)) (net_script w) /\
  (forall i m,
     attempts w !! i = Some m ->
     default true (net_script w !! i) = true ->
     m ∈ accepted (attempts w) (net_script w)).
Proof.
  simpl. rewrite daily_summary_run. simpl.
  destruct (fold_after_delivery_frame (items (users w)) w) as (Hu & Hr & Ht & _).
  destruct (fold_after_delivery_accepted w (items (users w)) w eq_refl eq_refl)
    as [Hexact Hnet].
  split; [done|]. split; [done|]. split; [done|]. split; [done|].
  split; [|split; [|split; [|split; [|split]]]].
  - by apply fold_after_delivery_outbox.
  - intros Hnet'. by apply fold_after_delivery_no_fault.
  - intros u1 n1 u2 n2 u3 n3 c1 c3 rest Hus H1 H3 Hsecond.
    unfold items. rewrite Hus. simpl.
    destruct Hsecond as [[H2 Hscript] | [[c2 H2] Hscript]].
    + rewrite (after_delivery_accepted w (u1, n1) c1 (true :: rest)) by done.
      rewrite (after_delivery_skipped _ (u2, n2)) by done.
      rewrite (after_delivery_accepted _ (u3, n3) c3 rest)
        by (simpl; rewrite ?Hscript; done).
      simpl. by rewrite Hscript, <- app_assoc.
    + rewrite (after_delivery_accepted w (u1, n1) c1 (false :: true :: rest)) by done.
      rewrite (after_delivery_refused _ (u2, n2) c2 (true :: rest))
        by (simpl; rewrite ?Hscript; done).
      rewrite (after_delivery_accepted _ (u3, n3) c3 rest)
        by (simpl; rewrite ?Hscript; done).
      simpl. by rewrite Hscript, <- app_assoc.
  - exact Hexact.
  - exact Hnet.
  - intros i m. apply accepted_elem.
Qed.
End BroadcastClaims.

(** ** Text replacement *)

Section ReplaceFacts.
Import PyStr.
Implicit Types (s p q x y old new : string).

Lemma str_app_cons c x y : String c x +:+ y = String c (x +:+ y).
Proof. reflexivity. Qed.

Lemma str_app_nil y : EmptyString +:+ y = y.
Proof. reflexivity. Qed.

Lemma str_app_assoc x y s : (x +:+ y) +:+ s = x +:+ (y +:+ s).
Proof.
  induction x as [|c x IH]; [done|]. by rewrite !str_app_cons, IH.
Qed.

Lemma str_app_length x y : String.length (x +:+ y) = String.length x + String.length y.
Proof.
  induction x as [|c x IH]; [done|]. rewrite str_app_cons. simpl. by rewrite IH.
Qed.

Lemma startswith_app p s : startswith p (p +:+ s) = true.
Proof.
  induction p as [|c p IH]; [done|].
  rewrite str_app_cons. simpl. by rewrite Ascii.eqb_refl.
Qed.

Lemma drop_chars_app p s : drop_chars (String.length p) (p +:+ s) = s.
Proof.
  induction p as [|c p IH]; [by destruct s|]. rewrite str_app_cons. exact IH.
Qed.

Lemma drop_chars_length n s : String.length (drop_chars n s) = String.length s - n.
Proof.
  revert s. induction n as [|n IH]; intros [|c s]; simpl; try done; lia.
Qed.

Lemma startswith_inv p s :
  startswith p s = true -> s = p +:+ drop_chars (String.length p) s.
Proof.
  revert s. induction p as [|a p IH]; intros [|b s]; simpl; try done.
  destruct (Ascii.eqb a b) eqn:E; [|done]. apply Ascii.eqb_eq in E. subst b.
  intros H. by rewrite str_app_cons, <- (IH s H).
Qed.

Lemma startswith_length p s : startswith p s = true -> String.length p <= String.length s.
Proof.
  intros H. rewrite (startswith_inv _ _ H), str_app_length. lia.
Qed.

(** A prefix of [x] is a prefix of [x] followed by anything. *)
Lemma startswith_weaken p x q : startswith p x = true -> startswith p (x +:+ q) = true.
Proof.
  revert x. induction p as [|a p IH]; intros [|b x]; try done.
  rewrite str_app_cons. simpl.
  destruct (Ascii.eqb a b); [apply IH|done].
Qed.

(** A prefix of [x +:+ q] no longer than [x] is a prefix of [x]. *)
Lemma startswith_short p x q :
  startswith p (x +:+ q) = true -> String.length p <= String.length x ->
  startswith p x = true.
Proof.
  revert x. induction p as [|a p IH]; intros [|b x];
    rewrite ?str_app_cons; simpl; try done; try lia.
  destruct (Ascii.eqb a b); [|done]. intros H Hlen. apply IH; [done|lia].
Qed.

(** A prefix of [x +:+ q] at least as long as [x] continues into [q]. *)
Lemma startswith_long p x q :
  startswith p (x +:+ q) = true -> String.length x <= String.length p ->
  startswith (drop_chars (String.length x) p) q = true.
Proof.
  revert p. induction x as [|b x IH]; intros [|a p];
    rewrite ?str_app_cons; simpl; try done; try lia.
  destruct (Ascii.eqb a b); [|done]. intros H Hlen. apply IH; [done|lia].
Qed.

(** Passing over [n] characters, then scanning, is scanning what is left. *)
Lemma replace_scan_skip old new n s :
  replace_scan old new n s = replace_scan old new 0 (drop_chars n s).
Proof.
  revert n. induction s as [|c s IH]; intros [|n]; simpl; auto.
Qed.

(** The two steps of the scan: at an occurrence, and elsewhere. *)
Lemma replace_hit old new s :
  old <> EmptyString ->
  replace old new (old +:+ s) = new +:+ replace old new s.
Proof.
  destruct old as [|a old]; [done|]. intros _. unfold replace.
  rewrite str_app_cons. cbn [replace_scan]. rewrite <- str_app_cons.
  rewrite startswith_app, replace_scan_skip. simpl String.length.
  replace (S (String.length old) - 1) with (String.length old) by lia.
  by rewrite drop_chars_app.
Qed.

Lemma replace_miss old new c s :
  old <> EmptyString ->
  startswith old (String c s) = false ->
  replace old new (String c s) = String c (replace old new s).
Proof.
  destruct old as [|a old]; [done|]. intros _ H. unfold replace.
  cbn [replace_scan]. by rewrite H.
Qed.

Lemma replace_nil old new : old <> EmptyString -> replace old new EmptyString = EmptyString.
Proof. by destruct old. Qed.

(** A text in which [old] does not occur is left as it is. *)
Lemma replace_no_occurrence old new s : occurs old s = false -> replace old new s = s.
Proof.
  destruct old as [|a old]; [by destruct s|].
  induction s as [|c s IH]; [done|].
  cbn [occurs]. intros H. apply orb_false_iff in H as [Hhead Htail].
  rewrite replace_miss by done. by rewrite IH.
Qed.

Lemma occurs_app old x y : occurs old (x +:+ old +:+ y) = true.
Proof.
  induction x as [|c x IH].
  - rewrite str_app_nil.
    destruct (old +:+ y) eqn:E; cbn [occurs]; rewrite <- ?E, startswith_app; done.
  - rewrite str_app_cons. cbn [occurs]. rewrite IH. apply orb_true_r.
Qed.

(** Removing never makes a text longer. *)
Lemma remove_scan_length old n s :
  String.length (replace_scan old EmptyString n s) <= String.length s.
Proof.
  revert n. induction s as [|c s IH]; intros n; [done|].
  cbn [replace_scan]. destruct n as [|n].
  - destruct (startswith old (String c s)).
    + rewrite str_app_nil. specialize (IH (String.length old - 1)). simpl. lia.
    + specialize (IH 0). simpl. lia.
  - specialize (IH n). simpl. lia.
Qed.

(** Removing a text that occurs takes at least its length away. *)
Lemma remove_occurring_length old s :
  old <> EmptyString ->
  occurs old s = true ->
  String.length (replace old EmptyString s) + String.length old <= String.length s.
Proof.
  intros Hne. induction s as [|c s IH].
  - destruct old; [done|]. discriminate.
  - cbn [occurs]. intros H.
    destruct (startswith old (String c s)) eqn:Hhead.
    + rewrite (startswith_inv _ _ Hhead) at 1. rewrite replace_hit by done.
      rewrite str_app_nil.
      pose proof (drop_chars_length (String.length old) (String c s)) as Hd.
      pose proof (startswith_length _ _ Hhead) as Hl.
      assert (Hr : String.length (replace old EmptyString
                      (drop_chars (String.length old) (String c s)))
                   <= String.length (drop_chars (String.length old) (String c s))).
      { destruct old as [|a old]; [done|]. apply remove_scan_length. }
      lia.
    + simpl in H. rewrite replace_miss by done. simpl. specialize (IH H). lia.
Qed.
Lemma unborderedb_correct p : unborderedb p = true -> unbordered p.
Proof.
  unfold unborderedb, unbordered. intros H k Hk.
  rewrite forallb_forall in H. specialize (H k).
  apply negb_true_iff, H, in_seq. lia.
Qed.

(** For a text without border, the scan treats what stands before an
    occurrence and what stands after it independently: every occurrence,
    wherever it is, is replaced. *)
Lemma replace_around_occurrence old new x y :
  old <> EmptyString ->
  unbordered old ->
  replace old new (x +:+ old +:+ y) =
    replace old new x +:+ new +:+ replace old new y.
Proof.
  intros Hne Hub. remember (String.length x) as n eqn:Hn. revert x Hn.
  induction n as [n IH] using lt_wf_ind. intros x Hn.
  destruct x as [|c x'].
  - by rewrite str_app_nil, replace_hit, replace_nil by done.
  - destruct (startswith old (String c x' +:+ old +:+ y)) eqn:Hhead.
    + destruct (le_lt_dec (String.length old) (String.length (String c x')))
        as [Hle|Hlt].
      * pose proof (startswith_short _ _ _ Hhead Hle) as Hx.
        pose proof (drop_chars_length (String.length old) (String c x')) as Hd.
        rewrite (startswith_inv _ _ Hx).
        set (x2 := drop_chars (String.length old) (String c x')) in *.
        assert (String.length old <> 0) by (destruct old; [done|simpl; lia]).
        rewrite str_app_assoc, !replace_hit by done.
        rewrite (IH (String.length x2)) by (simpl in *; lia || done).
        by rewrite str_app_assoc.
      * assert (Hl : String.length (String c x') <= String.length old) by lia.
        pose proof (startswith_long _ _ _ Hhead Hl) as Hover.
        apply startswith_short in Hover;
          [|rewrite drop_chars_length; lia].
        rewrite Hub in Hover; [done|]. simpl in *. lia.
    + assert (Hx : startswith old (String c x') = false).
      { destruct (startswith old (String c x')) eqn:E; [|done].
        by rewrite (startswith_weaken _ _ (old +:+ y) E) in Hhead. }
      rewrite str_app_cons in *. rewrite !replace_miss by done.
      rewrite (IH (String.length x')) by (simpl in *; lia || done).
      by rewrite str_app_cons.
Qed.
End ReplaceFacts.

(** ** The report and task handlers *)

Section HandlerFacts.
Context {R : PyRuntime}.
Import PyStr.

(** [ensure_user] touches [users] and the data directory only. *)
Lemma ensure_user_frame w user_id name :
  let w' := fst (ensure_user user_id name w) in
  reports w' = reports w /\ tasks w' = tasks w /\ clock w' = clock w /\
  net_script w' = net_script w /\ outbox w' = outbox w.
Proof.
  simpl. destruct (contains (py_str user_id) (users w)) eqn:E.
  - by rewrite (ensure_user_present _ _ _ E).
  - rewrite (ensure_user_absent _ _ _ E).
    match goal with
    | |- context [save_json ?p ?d ?w0] =>
        destruct (save_json_frame w0 p d) as (_ & -> & -> & -> & -> & ->)
    end.
    done.
Qed.

(** [ensure_user] raises exactly when the id is new and the write of
    [users] fails. *)
Lemma ensure_user_ok_iff w user_id name :
  snd (ensure_user user_id name w) = Ok tt <->
  contains (py_str user_id) (users w) = true \/
  hd WriteOk (write_script w) = WriteOk.
Proof.
  destruct (contains (py_str user_id) (users w)) eqn:E.
  - rewrite (ensure_user_present _ _ _ E). simpl. split; auto.
  - rewrite (ensure_user_absent _ _ _ E). unfold save_json. simpl.
    destruct (hd WriteOk (write_script w)); simpl; split; intros H;
      try done; auto; by destruct H.
Qed.

(** When [ensure_user] returns, [report] stores one element under the
    sender's id: the text of the message after the replacement. *)
Lemma report_stores w update :
  snd (ensure_user (IntId (sender_id update)) (sender_first_name update) w) = Ok tt ->
  get_or (str_of_int (sender_id update)) [] (reports (fst (report update w))) =
    (get_or (str_of_int (sender_id update)) [] (reports w) ++
     [new_report (replace "/report " "" (message_text update)) w])%list.
Proof.
  intros Hok. unfold report, bind.
  pose proof (ensure_user_frame w (IntId (sender_id update))
                (sender_first_name update)) as (Hr & _ & Hc & _).
  destruct (ensure_user (IntId (sender_id update)) (sender_first_name update) w)
    as [w1 [[]|e]] eqn:E; simpl in *; [|done].
  pose proof (append_report_history w1 (str_of_int (sender_id update))
                (replace "/report " "" (message_text update))
                (str_of_int (sender_id update))) as H.
  rewrite String.eqb_refl in H.
  destruct (append_report _ _ w1) as [w2 [[]|e]]; simpl in *;
    rewrite H, Hr; unfold new_report; by rewrite Hc.
Qed.

Lemma add_task_stores w update :
  snd (ensure_user (IntId (sender_id update)) (sender_first_name update) w) = Ok tt ->
  get_or (str_of_int (sender_id update)) [] (tasks (fst (add_task update w))) =
    (get_or (str_of_int (sender_id update)) [] (tasks w) ++
     [new_task (replace "/task " "" (message_text update)) w])%list.
Proof.
  intros Hok. unfold add_task, bind.
  pose proof (ensure_user_frame w (IntId (sender_id update))
                (sender_first_name update)) as (_ & Ht & Hc & _).
  destruct (ensure_user (IntId (sender_id update)) (sender_first_name update) w)
    as [w1 [[]|e]] eqn:E; simpl in *; [|done].
  pose proof (append_task_tasks w1 (str_of_int (sender_id update))
                (replace "/task " "" (message_text update))) as H.
  destruct (append_task _ _ w1) as [w2 [[]|e]]; simpl in *;
    rewrite H, get_or_set_same, Ht; unfold new_task; by rewrite Hc.
Qed.

(** When [ensure_user] raises, the handler stops there: nothing is stored. *)
Lemma report_aborted w update e :
  snd (ensure_user (IntId (sender_id update)) (sender_first_name update) w) = Raise e ->
  snd (report update w) = Raise e /\ reports (fst (report update w)) = reports w.
Proof.
  intros Hraise. unfold report, bind.
  pose proof (ensure_user_frame w (IntId (sender_id update))
                (sender_first_name update)) as (Hr & _).
  destruct (ensure_user (IntId (sender_id update)) (sender_first_name update) w)
    as [w1 [[]|e']]; simpl in *; [done|]. by injection Hraise as ->.
Qed.

Lemma command_words_unbordered : unbordered "/report " /\ unbordered "/task ".
Proof. split; by apply unborderedb_correct. Qed.

(** C10. [report] and [add_task] store the message text with every
    occurrence of the command word followed by a space taken out, wherever
    it stands: around an occurrence the text before and the text after are
    treated alike, and the stored text is shorter than the message by at
    least the length of the word, so it differs from it. A message that is
    the bare command word, with no space after it, is stored as it is. *)
Theorem handlers_remove_every_command_occurrence (w : world) (update : Update) :
  let uid := str_of_int (sender_id update) in
  let stored_report := replace "/report " "" (message_text update) in
  let stored_title := replace "/task " "" (message_text update) in
  (snd (ensure_user (IntId (sender_id update)) (sender_first_name update) w) = Ok tt ->
     get_or uid [] (reports (fst (report update w))) =
       (get_or uid [] (reports w) ++ [new_report stored_report w])%list /\
     get_or uid [] (tasks (fst (add_task update w))) =
       (get_or uid [] (tasks w) ++ [new_task stored_title w])%list) /\
  (forall x y, message_text update = x +:+ "/report " +:+ y ->
     stored_report = replace "/report " "" x +:+ replace "/report " "" y /\
     String.length stored_report + 8 <= String.length (message_text update) /\
     stored_report <> message_text update) /\
  (forall x y, message_text update = x +:+ "/task " +:+ y ->
     stored_title = replace "/task " "" x +:+ replace "/task " "" y /\
     String.length stored_title + 6 <= String.length (message_text update) /\
     stored_title <> message_text update) /\
  (message_text update = "/report" -> stored_report = "/report") /\
  (message_text update = "/task" -> stored_title = "/task").
Proof.
  cbv zeta. destruct command_words_unbordered as [Hr Ht].
  split; [|split; [|split; [|split]]].
  - intros Hok. split; [by apply report_stores | by apply add_task_stores].
  - intros x y ->.
    pose proof (remove_occurring_length "/report " (x +:+ "/report " +:+ y))
      as Hlen.
    rewrite occurs_app in Hlen. specialize (Hlen ltac:(done) eq_refl).
    simpl String.length in Hlen at 2.
    split; [by rewrite replace_around_occurrence|]. split; [exact Hlen|].
    intros Heq. rewrite Heq in Hlen. lia.
  - intros x y ->.
    pose proof (remove_occurring_length "/task " (x +:+ "/task " +:+ y))
      as Hlen.
    rewrite occurs_app in Hlen. specialize (Hlen ltac:(done) eq_refl).
    simpl String.length in Hlen at 2.
    split; [by rewrite replace_around_occurrence|]. split; [exact Hlen|].
    intros Heq. rewrite Heq in Hlen. lia.
  - by intros ->.
  - by intros ->.
Qed.
End HandlerFacts.

(** ** The show command without a name *)

Section ShowCommandFacts.
Import PyStr.

(** [show_reports] reads the world and leaves it as it is. *)
Lemma show_reports_run w update :
  show_reports update w =
    (w, Ok match resolve_id_by_name (items (users w)) (name_to_find update) with
           | None => REPLY_NOT_FOUND
           | Some selected =>
               match get_or selected [] (reports w) with
               | [] => REPLY_NO_REPORTS
               | r :: l =>
                   REPLY_REPORTS_HEADER +:+ NL +:+ NL +:+
                   join (NL +:+ NL)
                        (map (fun r => "- " +:+ report_text r) (last_n 10 (r :: l)))
               end
           end).
Proof.
  unfold show_reports, bind, gets, ret. simpl.
  destruct (resolve_id_by_name (items (users w)) (name_to_find update)); [|done].
  by destruct (get_or s [] (reports w)).
Qed.

(** The text of a command sent without argument is the command word alone;
    [replace] looks for the word followed by a space, finds none, and the
    word itself becomes the name looked for. *)
Lemma name_to_find_bare_command update :
  message_text update = "/show" -> name_to_find update = "/show".
Proof. unfold name_to_find. by intros ->. Qed.

(** The sender's own name is the default only when nothing is left of the
    text, as for the command word followed by a space. *)
Lemma name_to_find_default update :
  strip (replace "/show " "" (message_text update)) = EmptyString ->
  name_to_find update = sender_first_name update.
Proof. unfold name_to_find. by intros ->. Qed.

Lemma show_bare_command_not_found w update :
  message_text update = "/show" ->
  resolve_id_by_name (items (users w)) "/show" = None ->
  show_reports update w = (w, Ok REPLY_NOT_FOUND).
Proof.
  intros Htext Hnone.
  by rewrite show_reports_run, (name_to_find_bare_command _ Htext), Hnone.
Qed.

(** C8, at a failing input. Sara is registered under her own name and has a
    report. Her [/show] without a name is answered with the "not found"
    text, because the name looked for is the command word; asking for her
    own name shows the report, and so would a text with a space after the
    command word. *)
Theorem show_without_name_is_not_found :
  let sara text :=
    {| sender_id := 102; sender_first_name := "Sara"; message_text := text |} in
  resolve_id_by_name (items (users example_world)) "Sara" = Some "102" /\
  name_to_find (sara "/show") = "/show" /\
  show_reports (sara "/show") example_world = (example_world, Ok REPLY_NOT_FOUND) /\
  show_reports (sara "/show Sara") example_world =
    (example_world, Ok (REPLY_REPORTS_HEADER +:+ NL +:+ NL +:+ "- only one")) /\
  show_reports (sara "/show ") example_world =
    (example_world, Ok (REPLY_REPORTS_HEADER +:+ NL +:+ NL +:+ "- only one")).
Proof. cbv zeta. repeat split. Qed.
End ShowCommandFacts.

(** * The claims at concrete inputs, under the reference runtime *)

Section Witnesses.
Import PyStr.
#[local] Existing Instance reference_runtime.

(** C1 on [example_world]: user 101 has 4 pending tasks and 10 reports, user
    102 none and 1, user 103 has 1 and 5. *)
Lemma generate_tip_decision_table_witness :
  generate_tip (IntId 101) example_world = (example_world, Ok TIP_BACKLOG) /\
  generate_tip (IntId 102) example_world = (example_world, Ok TIP_LOW_VOLUME) /\
  generate_tip (StrId "103") example_world = (example_world, Ok TIP_STEADY).
Proof.
  pose proof (generate_tip_decision_table example_world (IntId 101)) as H1.
  pose proof (generate_tip_decision_table example_world (IntId 102)) as H2.
  pose proof (generate_tip_decision_table example_world (StrId "103")) as H3.
  cbv zeta in H1, H2, H3.
  destruct H1 as (Hbacklog & _). destruct H2 as (_ & Hlow & _).
  destruct H3 as (_ & _ & Hsteady & _).
  split; [|split].
  - apply Hbacklog. vm_compute. lia.
  - apply Hlow; vm_compute; lia.
  - apply Hsteady; vm_compute; lia.
Defined.

(** C7 on [example_world], where nobody has the id asked for. *)
Lemma generate_tip_unknown_id_witness :
  generate_tip (StrId "nonexistent") example_world = (example_world, Ok TIP_LOW_VOLUME) /\
  pending_count example_world "nonexistent" = 0 /\
  volume example_world "nonexistent" = 0.
Proof.
  apply (generate_tip_unknown_id example_world (StrId "nonexistent"));
    reflexivity.
Defined.

(** C3 on a data directory whose [users.json] was cut short and whose
    [reports.json] is missing: both loads answer alike. *)
Lemma load_json_absent_or_unparseable_witness :
  let w := with_files {[ USERS_FILE := "{ broken" ]} blank_world in
  (snd (load_json USERS_FILE (JObj []) w) = Ok (JObj []) /\
   files (fst (load_json USERS_FILE (JObj []) w)) =
     <[USERS_FILE := json_dumps (JObj [])]> (files w)) /\
  (snd (load_json REPORTS_FILE (JObj []) w) = Ok (JObj []) /\
   files (fst (load_json REPORTS_FILE (JObj []) w)) =
     <[REPORTS_FILE := json_dumps (JObj [])]> (files w)).
Proof.
  cbv zeta. split.
  - pose proof (load_json_absent_or_unparseable
                  (with_files {[ USERS_FILE := "{ broken" ]} blank_world)
                  USERS_FILE) as H.
    cbv zeta in H. destruct H as [_ H].
    + right. exists "{ broken". split; reflexivity.
    + exact H.
  - pose proof (load_json_absent_or_unparseable
                  (with_files {[ USERS_FILE := "{ broken" ]} blank_world)
                  REPORTS_FILE) as H.
    cbv zeta in H. destruct H as [_ H].
    + left. reflexivity.
    + exact H.
Defined.

(** C3, the claim as stated, refuted. [tasks.json] is missing and cannot be
    created: the load raises, and there is still no file. [tasks.json] holds
    a text that does not parse and the write of [{}] stops after one
    character: the load raises, and the file holds that character. *)
Lemma failed_reset_raises_to_caller :
  let absent := with_write_script [OpenDenied] blank_world in
  let broken := with_write_script [WriteFault 1]
                  (with_files {[ TASKS_FILE := "[1, 2" ]} blank_world) in
  files absent !! TASKS_FILE = None /\
  snd (load_json TASKS_FILE (JObj []) absent) = Raise OSError /\
  files (fst (load_json TASKS_FILE (JObj []) absent)) !! TASKS_FILE = None /\
  json_loads "[1, 2" = None /\
  snd (load_json TASKS_FILE (JObj []) broken) = Raise OSError /\
  files (fst (load_json TASKS_FILE (JObj []) broken)) !! TASKS_FILE = Some "{".
Proof. cbv zeta. repeat split; reflexivity. Qed.

(** C2, the claim as stated, refuted. [users.json] holds the document of one
    user; a load observes it. The save of the document of two users stops
    after 12 characters and raises. The resource then holds those 12
    characters, and the next load returns the empty document: the prior
    document is gone. *)
Lemma failed_save_loses_prior_document :
  let prior := json_of_users [("1", "Ali")] in
  let next := json_of_users [("1", "Ali"); ("2", "Bob")] in
  let w := with_write_script [WriteFault 12]
             (with_files {[ USERS_FILE := json_dumps prior ]} blank_world) in
  let w' := fst (save_json USERS_FILE next w) in
  snd (load_json USERS_FILE (JObj []) w) = Ok prior /\
  snd (save_json USERS_FILE next w) = Raise OSError /\
  files w' !! USERS_FILE =
    Some ("{" +:+ NL +:+ "    " +:+ DQ +:+ "1" +:+ DQ +:+ ": " +:+ DQ) /\
  snd (load_json USERS_FILE (JObj []) w') = Ok (JObj []) /\
  files (fst (load_json USERS_FILE (JObj []) w')) !! USERS_FILE = Some "{}" /\
  JObj [] <> prior.
Proof. cbv zeta. repeat split; try reflexivity. discriminate. Qed.

(** C2 as amended, on the same save: the load that follows resets the
    resource when its own write goes through, and raises when it does not. *)
Lemma save_json_writes_in_place_witness :
  let prior := json_of_users [("1", "Ali")] in
  let next := json_of_users [("1", "Ali"); ("2", "Bob")] in
  let w := with_write_script [WriteFault 12]
             (with_files {[ USERS_FILE := json_dumps prior ]} blank_world) in
  let v := with_write_script [WriteFault 12; WriteFault 0]
             (with_files {[ USERS_FILE := json_dumps prior ]} blank_world) in
  let w' := fst (save_json USERS_FILE next w) in
  let v' := fst (save_json USERS_FILE next v) in
  snd (save_json USERS_FILE next w) = Raise OSError /\
  files w' = <[USERS_FILE := take_chars 12 (json_dumps next)]> (files w) /\
  snd (load_json USERS_FILE (JObj []) w') = Ok (JObj []) /\
  snd (load_json USERS_FILE (JObj []) v') = Raise OSError.
Proof.
  cbv zeta.
  pose proof (save_json_writes_in_place
                (with_write_script [WriteFault 12]
                   (with_files {[ USERS_FILE := json_dumps (json_of_users [("1", "Ali")]) ]}
                      blank_world))
                USERS_FILE (json_of_users [("1", "Ali"); ("2", "Bob")])) as H.
  pose proof (save_json_writes_in_place
                (with_write_script [WriteFault 12; WriteFault 0]
                   (with_files {[ USERS_FILE := json_dumps (json_of_users [("1", "Ali")]) ]}
                      blank_world))
                USERS_FILE (json_of_users [("1", "Ali"); ("2", "Bob")])) as G.
  cbv zeta in H, G. destruct H as [H _]. destruct G as [G _].
  cbv beta iota zeta delta [hd write_script with_write_script] in H, G.
  destruct H as (Hr & Hf & _ & Hload). destruct G as (_ & _ & _ & Gload).
  split; [exact Hr|]. split; [exact Hf|]. split.
  - exact (proj1 (Hload eq_refl)).
  - exact (proj1 (Gload eq_refl)).
Defined.

(** C5: Ali starts the bot twice, the second time under another name. *)
Lemma ensure_user_idempotent_witness :
  let w1 := fst (ensure_user (IntId 5) "Ali" blank_world) in
  users w1 = [("5", "Ali")] /\
  write_log w1 = [(USERS_FILE, WriteOk)] /\
  ensure_user (IntId 5) "Ali Reza" w1 = (w1, Ok tt) /\
  get "5" (users w1) = Some "Ali".
Proof.
  cbv zeta.
  pose proof (ensure_user_idempotent blank_world (IntId 5) "Ali" "Ali Reza") as H.
  cbv zeta in H. destruct H as (Hnew & _ & Hsecond & Hget).
  destruct (Hnew eq_refl) as (Husers & Hlog & _).
  split; [exact Husers|]. split; [exact Hlog|]. split; [exact Hsecond|exact Hget].
Defined.

(** C9: Sam and a later Sam; [Sam] resolves to the first, [sam] to nobody. *)
Lemma resolve_id_by_name_first_match_witness :
  let w2 := fst (ensure_user (IntId 8) "Sam"
                   (fst (ensure_user (IntId 7) "Sam" example_world))) in
  resolve_id_by_name (items (users w2)) "Sam" = Some "7" /\
  resolve_id_by_name (items (users w2)) "sam" = None.
Proof.
  cbv zeta. split.
  - apply (resolve_id_by_name_first_match (users example_world) "Sam");
      reflexivity.
  - reflexivity.
Defined.

(** C4: three users, and a transport that refuses the second message; the
    third attempt is taken and so belongs to what is delivered. *)
Lemma daily_summary_isolates_failures_witness :
  let w := with_net_script [true; false; true] example_world in
  snd (daily_summary w) = Ok tt /\
  (outbox (fst (daily_summary w)) =
     [(101%Z, summary_text w "101" "Ali"); (103%Z, summary_text w "103" "Omid")] /\
   net_script (fst (daily_summary w)) = []) /\
  (103%Z, summary_text w "103" "Omid") ∈ accepted (attempts w) (net_script w).
Proof.
  cbv zeta.
  pose proof (daily_summary_isolates_failures
                (with_net_script [true; false; true] example_world)) as H.
  cbv zeta in H. destruct H as (Hok & _ & _ & _ & _ & _ & Hthree & _ & _ & Helem).
  split; [exact Hok|]. split.
  - apply (Hthree "101" "Ali" "102" "Sara" "103" "Omid" 101%Z 103%Z []);
      try reflexivity.
    right. split; [by exists 102%Z | reflexivity].
  - apply (Helem 2%nat); reflexivity.
Defined.

(** C10: a report that quotes the command, and a bare command word. *)
Lemma handlers_remove_every_command_occurrence_witness :
  let update text :=
    {| sender_id := 101; sender_first_name := "Ali"; message_text := text |} in
  get_or "101" [] (reports (fst (report (update "/report use /report daily") example_world))) =
    (get_or "101" [] (reports example_world) ++
     [new_report "use daily" example_world])%list /\
  replace "/report " "" "/report" = "/report" /\
  replace "/task " "" "buy /task milk" = "buy milk".
Proof.
  cbv zeta. split; [|split].
  - apply (handlers_remove_every_command_occurrence example_world
             {| sender_id := 101; sender_first_name := "Ali";
                message_text := "/report use /report daily" |}).
    reflexivity.
  - apply (handlers_remove_every_command_occurrence example_world
             {| sender_id := 101; sender_first_name := "Ali";
                message_text := "/report" |}).
    reflexivity.
  - pose proof (handlers_remove_every_command_occurrence example_world
             {| sender_id := 101; sender_first_name := "Ali";
                message_text := "buy /task milk" |}) as H.
    cbv zeta in H. destruct H as (_ & _ & H & _).
    destruct (H "buy " "milk" eq_refl) as (Heq & _). exact Heq.
Defined.
(** A first session: Ali starts the bot, reports and adds a task. Each
    handler writes its own collection, and what is on disk loads back as
    the document in memory. *)
Example first_session_is_persisted :
  let ali text :=
    {| sender_id := 7; sender_first_name := "Ali"; message_text := text |} in
  let w1 := fst (start (ali "/start")
                   (with_clock ["2024-05-01T09:00:00"; "2024-05-01T09:05:00"]
                      blank_world)) in
  let w2 := fst (report (ali "/report fixed the parser") w1) in
  let w3 := fst (add_task (ali "/task review the patch") w2) in
  users w3 = [("7", "Ali")] /\
  reports w3 =
    [("7", [{| report_text := "fixed the parser";
               report_time := "2024-05-01T09:00:00" |}])] /\
  tasks w3 =
    [("7", [{| task_title := "review the patch"; task_done := false;
               task_time := "2024-05-01T09:05:00" |}])] /\
  write_log w3 =
    [(USERS_FILE, WriteOk); (REPORTS_FILE, WriteOk); (TASKS_FILE, WriteOk)] /\
  load_json USERS_FILE (JObj []) w3 = (w3, Ok (json_of_users (users w3))) /\
  load_json REPORTS_FILE (JObj []) w3 = (w3, Ok (json_of_reports (reports w3))) /\
  load_json TASKS_FILE (JObj []) w3 = (w3, Ok (json_of_tasks (tasks w3))).
Proof. cbv zeta. repeat apply conj; vm_compute; reflexivity. Qed.
End Witnesses.

(** * Further properties of the store and of start-up *)

Section StoreExtras.
Context {R : PyRuntime}.
Import PyStr.

Lemma no_write_fault_hd w : no_write_fault w -> hd WriteOk (write_script w) = WriteOk.
Proof. unfold no_write_fault. by intros [|o l -> _]. Qed.

Lemma no_write_fault_attempt w path o content :
  no_write_fault w -> no_write_fault (write_attempt path o content w).
Proof.
  unfold no_write_fault. simpl. intros [|o' l _ Hl]; [constructor | exact Hl].
Qed.

Lemma data_paths_distinct :
  USERS_FILE <> REPORTS_FILE /\ USERS_FILE <> TASKS_FILE /\ REPORTS_FILE <> TASKS_FILE.
Proof. repeat split; discriminate. Qed.

(** What a save answers, by the outcome of its write. *)
Lemma save_json_result w path data :
  snd (save_json path data w) =
    match hd WriteOk (write_script w) with
    | WriteOk => Ok tt
    | _ => Raise OSError
    end.
Proof. unfold save_json. by destruct (hd WriteOk (write_script w)). Qed.

(** A save touches no other file. *)
Lemma save_json_other_file w path data path' :
  path' <> path ->
  files (fst (save_json path data w)) !! path' = files w !! path'.
Proof.
  intros Hne. unfold save_json.
  destruct (hd WriteOk (write_script w)); simpl; try done;
    by rewrite lookup_insert_ne.
Qed.

(** X1. A resource that parses is only read: [load_json] returns the value
    it holds, whatever its shape and whatever the default, and the world,
    the data directory and the write log included, is as before. *)
Theorem load_json_reads_without_writing
    (w : world) (path s : string) (v default : json) :
  files w !! path = Some s ->
  json_loads s = Some v ->
  load_json path default w = (w, Ok v).
Proof. intros Hs Hv. by apply (load_json_valid w path s v). Qed.

(** X2. When the resource is absent or does not parse and the write of the
    empty document fails, [load_json] raises the error of that write: one
    write was attempted, a refused open leaves the directory as it was, a
    write cut after [n] characters leaves those characters, and the
    documents in memory are untouched. *)
Theorem load_json_recovery_can_fail (w : world) (path : string) :
  (files w !! path = None \/
   exists s, files w !! path = Some s /\ json_loads s = None) ->
  hd WriteOk (write_script w) <> WriteOk ->
  let w' := fst (load_json path (JObj []) w) in
  snd (load_json path (JObj []) w) = Raise OSError /\
  write_log w' = (write_log w ++ [(path, hd WriteOk (write_script w))])%list /\
  (hd WriteOk (write_script w) = OpenDenied -> files w' = files w) /\
  (forall n, hd WriteOk (write_script w) = WriteFault n ->
     files w' = <[path := take_chars n (json_dumps (JObj []))]> (files w)) /\
  users w' = users w /\ reports w' = reports w /\ tasks w' = tasks w.
Proof.
  intros Hres Hfault. cbv zeta.
  rewrite (load_json_fault_run _ _ Hres Hfault). simpl.
  destruct (hd WriteOk (write_script w)) as [| |n]; [done| |];
    repeat split; try done; try discriminate.
  by intros ? [= ->].
Qed.

(** X3. Save and load compose to the identity on every document the
    runtime reads back from its own text: after a save that goes through,
    whatever the resource held before, a load returns the document saved
    and writes nothing. *)
Theorem save_then_load_returns_document
    (w : world) (path : string) (data default : json) :
  hd WriteOk (write_script w) = WriteOk ->
  json_loads (json_dumps data) = Some data ->
  let w' := fst (save_json path data w) in
  snd (save_json path data w) = Ok tt /\
  files w' !! path = Some (json_dumps data) /\
  load_json path default w' = (w', Ok data).
Proof.
  intros Hok Hrt. cbv zeta. rewrite (save_json_ok _ _ _ Hok). simpl.
  split; [done|]. split; [apply lookup_insert_eq|].
  eapply load_json_valid; [|exact Hrt]. simpl. apply lookup_insert_eq.
Qed.

Lemma assign_empty_users w :
  assign users_of_json (fun d => set_users (fun _ => d)) (JObj []) w =
    (set_users (fun _ => []) w, Ok tt).
Proof. reflexivity. Qed.

Lemma assign_empty_reports w :
  assign reports_of_json (fun d => set_reports (fun _ => d)) (JObj []) w =
    (set_reports (fun _ => []) w, Ok tt).
Proof. reflexivity. Qed.

Lemma assign_empty_tasks w :
  assign tasks_of_json (fun d => set_tasks (fun _ => d)) (JObj []) w =
    (set_tasks (fun _ => []) w, Ok tt).
Proof. reflexivity. Qed.

(** X4. Start-up on a data directory that has none of the three files, with
    writes that go through: the three files are created, in the order
    users, reports, tasks, each with the text of [{}]; the three documents
    in memory are bound to the empty document, whatever they held; and a
    second start-up reads the files back, binds the same and writes
    nothing. *)
Theorem startup_initialises_fresh_directory (w : world) :
  files w !! USERS_FILE = None ->
  files w !! REPORTS_FILE = None ->
  files w !! TASKS_FILE = None ->
  no_write_fault w ->
  let w' := fst (startup w) in
  let empty := json_dumps (JObj []) in
  snd (startup w) = Ok tt /\
  users w' = [] /\ reports w' = [] /\ tasks w' = [] /\
  files w' =
    <[TASKS_FILE := empty]> (<[REPORTS_FILE := empty]> (<[USERS_FILE := empty]> (files w))) /\
  write_log w' =
    (write_log w ++
     [(USERS_FILE, WriteOk); (REPORTS_FILE, WriteOk); (TASKS_FILE, WriteOk)])%list /\
  startup w' = (w', Ok tt).
Proof.
  intros Hu Hr Ht Hnf. cbv zeta.
  destruct data_paths_distinct as (Hur & Hut & Hrt).
  set (e := json_dumps (JObj [])).
  set (w1 := set_users (fun _ => []) (write_attempt USERS_FILE WriteOk (Some e) w)).
  set (w2 := set_reports (fun _ => []) (write_attempt REPORTS_FILE WriteOk (Some e) w1)).
  set (w3 := set_tasks (fun _ => []) (write_attempt TASKS_FILE WriteOk (Some e) w2)).
  assert (Hnf1 : no_write_fault w1)
    by (by apply (no_write_fault_attempt w USERS_FILE WriteOk (Some e))).
  assert (Hnf2 : no_write_fault w2)
    by (by apply (no_write_fault_attempt w1 REPORTS_FILE WriteOk (Some e))).
  assert (H1 : load_json USERS_FILE (JObj []) w =
               (write_attempt USERS_FILE WriteOk (Some e) w, Ok (JObj []))).
  { apply load_json_absent; [done | by apply no_write_fault_hd]. }
  assert (H2 : load_json REPORTS_FILE (JObj []) w1 =
               (write_attempt REPORTS_FILE WriteOk (Some e) w1, Ok (JObj []))).
  { apply load_json_absent; [|by apply no_write_fault_hd].
    simpl. by rewrite lookup_insert_ne. }
  assert (H3 : load_json TASKS_FILE (JObj []) w2 =
               (write_attempt TASKS_FILE WriteOk (Some e) w2, Ok (JObj []))).
  { apply load_json_absent; [|by apply no_write_fault_hd].
    simpl. by rewrite !lookup_insert_ne. }
  assert (Hrun : startup w = (w3, Ok tt)).
  { unfold startup, bind.
    rewrite H1, assign_empty_users. fold w1.
    rewrite H2, assign_empty_reports. fold w2.
    by rewrite H3, assign_empty_tasks. }
  rewrite Hrun. cbn [fst snd].
  split; [done|]. split; [done|]. split; [done|]. split; [done|].
  split; [done|]. split; [simpl; by rewrite <- !app_assoc|].
  unfold startup, bind.
  rewrite (load_json_valid w3 USERS_FILE e (JObj [])); cycle 1.
  { simpl. rewrite !lookup_insert_ne by done. apply lookup_insert_eq. }
  { apply json_loads_dumps_empty. }
  rewrite assign_empty_users.
  rewrite (load_json_valid _ REPORTS_FILE e (JObj [])); cycle 1.
  { simpl. rewrite lookup_insert_ne by done. apply lookup_insert_eq. }
  { apply json_loads_dumps_empty. }
  rewrite assign_empty_reports.
  rewrite (load_json_valid _ TASKS_FILE e (JObj [])); cycle 1.
  { simpl. apply lookup_insert_eq. }
  { apply json_loads_dumps_empty. }
  by rewrite assign_empty_tasks.
Qed.

(** X5. Start-up stops at the first load that fails: when [users.json] is
    absent and cannot be written, start-up raises after that one attempt,
    and the two other files are neither read nor written. *)
Theorem startup_stops_at_first_failure (w : world) :
  files w !! USERS_FILE = None ->
  hd WriteOk (write_script w) <> WriteOk ->
  let w' := fst (startup w) in
  snd (startup w) = Raise OSError /\
  write_log w' = (write_log w ++ [(USERS_FILE, hd WriteOk (write_script w))])%list /\
  files w' !! REPORTS_FILE = files w !! REPORTS_FILE /\
  files w' !! TASKS_FILE = files w !! TASKS_FILE.
Proof.
  intros Hu Hfault. cbv zeta.
  destruct data_paths_distinct as (Hur & Hut & Hrt).
  unfold startup, bind.
  rewrite (load_json_fault_run w USERS_FILE (or_introl Hu) Hfault). simpl.
  destruct (hd WriteOk (write_script w)) as [| |n]; [done| |];
    repeat split; by rewrite ?lookup_insert_ne.
Qed.
End StoreExtras.

(** * Further properties of the repository *)

Section RepositoryExtras.
Context {R : PyRuntime}.
Import PyStr.

Lemma get_app_present {V : Type} (k : string) (v : V) (d d' : dict V) :
  get k d = Some v -> get k (d ++ d')%list = Some v.
Proof.
  induction d as [|[k0 v0] d IH]; simpl; [done|].
  destruct (String.eqb k0 k); [done|apply IH].
Qed.

Lemma get_app_absent {V : Type} (k : string) (d d' : dict V) :
  get k d = None -> get k (d ++ d')%list = get k d'.
Proof.
  induction d as [|[k0 v0] d IH]; simpl; [done|].
  destruct (String.eqb k0 k); [done|apply IH].
Qed.

(** X6. [get_username] after [ensure_user]: the id answers with the name it
    was first registered under, which is the name just given only when the
    id was new; every other id answers as before; an id that is no key of
    [users] answers "Unknown". *)
Theorem get_username_after_ensure_user
    (w : world) (user_id other : id_arg) (name : string) :
  let w' := fst (ensure_user user_id name w) in
  get_username user_id w' =
    (w', Ok (default name (get (py_str user_id) (users w)))) /\
  (py_str other <> py_str user_id ->
     snd (get_username other w') = snd (get_username other w)) /\
  (get (py_str other) (users w) = None ->
     get_username other w = (w, Ok "Unknown")).
Proof.
  cbv zeta. unfold get_username, gets, get_or. simpl.
  rewrite ensure_user_users.
  destruct (contains (py_str user_id) (users w)) eqn:E.
  - destruct (contains_true_get _ _ E) as [v Hv]. rewrite Hv. simpl.
    split; [done|]. split; [done|]. by intros ->.
  - pose proof (contains_false_get _ _ E) as Hnone. rewrite Hnone. simpl.
    rewrite (get_app_absent _ _ _ Hnone). simpl. rewrite String.eqb_refl. simpl.
    split; [done|]. split; [|by intros ->].
    intros Hne. destruct (get (py_str other) (users w)) as [v|] eqn:Ho.
    + by rewrite (get_app_present _ _ _ _ Ho).
    + rewrite (get_app_absent _ _ _ Ho). simpl.
      destruct (String.eqb (py_str user_id) (py_str other)) eqn:E'; [|done].
      apply String.eqb_eq in E'. congruence.
Qed.

Lemma count_words_step (word : string) (l : list string) :
  forall repeated : dict nat,
    get_or word 0
      (fold_left (fun rep w0 => set w0 (get_or w0 0 rep + 1) rep) l repeated) =
    get_or word 0 repeated + count_occ String.string_dec l word.
Proof.
  induction l as [|w0 l IH]; intros repeated; simpl; [lia|].
  rewrite IH. destruct (String.string_dec w0 word) as [->|Hne].
  - rewrite get_or_set_same. lia.
  - rewrite get_or_set_other by congruence. lia.
Qed.

(** X7. The tally of [generate_tip] counts words: after the loop over some
    reports, the entry of a word is its entry before plus the number of
    times it occurs among the blank-separated words of their texts; a word
    that occurs nowhere keeps its entry (0 when it has none). *)
Theorem word_tally_counts_occurrences
    (rs : list Report) (repeated : dict nat) (word : string) :
  get_or word 0
    (fold_left (fun rep r => count_words rep (report_text r)) rs repeated) =
  get_or word 0 repeated +
  count_occ String.string_dec (concat (map (fun r => split (report_text r)) rs)) word.
Proof.
  revert repeated. induction rs as [|r rs IH]; intros repeated; simpl; [lia|].
  rewrite IH. unfold count_words. rewrite count_words_step, count_occ_app. lia.
Qed.
End RepositoryExtras.

(** * Further properties of the handlers *)

Section HandlerRuns.
Context {R : PyRuntime}.
Import PyStr.

Lemma save_json_no_fault w path data :
  no_write_fault w -> no_write_fault (fst (save_json path data w)).
Proof.
  intros H. unfold save_json.
  destruct (hd WriteOk (write_script w)); simpl; by apply no_write_fault_attempt.
Qed.

Lemma save_json_mirror w path data :
  hd WriteOk (write_script w) = WriteOk ->
  files (fst (save_json path data w)) !! path = Some (json_dumps data).
Proof. intros H. rewrite (save_json_ok _ _ _ H). simpl. apply lookup_insert_eq. Qed.

Lemma save_json_script w path data :
  write_script (fst (save_json path data w)) = tail (write_script w).
Proof. unfold save_json. by destruct (hd WriteOk (write_script w)). Qed.

(** The handler [report], in two steps. *)
Lemma report_run w update :
  report update w =
    let e := ensure_user (IntId (sender_id update)) (sender_first_name update) w in
    match snd e with
    | Raise x => (fst e, Raise x)
    | Ok _ =>
        let a := append_report (str_of_int (sender_id update))
                   (replace "/report " "" (message_text update)) (fst e) in
        (fst a, match snd a with
                | Ok _ => Ok REPLY_REPORT_SAVED
                | Raise x => Raise x
                end)
    end.
Proof.
  unfold report, bind.
  destruct (ensure_user _ _ w) as [w1 [[]|x]]; simpl; [|done].
  by destruct (append_report _ _ w1) as [w2 [[]|y]].
Qed.

Lemma add_task_run w update :
  add_task update w =
    let e := ensure_user (IntId (sender_id update)) (sender_first_name update) w in
    match snd e with
    | Raise x => (fst e, Raise x)
    | Ok _ =>
        let a := append_task (str_of_int (sender_id update))
                   (replace "/task " "" (message_text update)) (fst e) in
        (fst a, match snd a with
                | Ok _ => Ok REPLY_TASK_ADDED
                | Raise x => Raise x
                end)
    end.
Proof.
  unfold add_task, bind.
  destruct (ensure_user _ _ w) as [w1 [[]|x]]; simpl; [|done].
  by destruct (append_task _ _ w1) as [w2 [[]|y]].
Qed.

Lemma start_world w update :
  fst (start update w) =
    fst (ensure_user (IntId (sender_id update)) (sender_first_name update) w).
Proof.
  unfold start, bind. by destruct (ensure_user _ _ w) as [w1 [[]|x]].
Qed.

Lemma tip_command_world w update : fst (tip_command update w) = w.
Proof. reflexivity. Qed.

Lemma show_reports_world w update : fst (show_reports update w) = w.
Proof. by rewrite show_reports_run. Qed.

(** What [ensure_user] does to the directory and to the script of writes. *)
Lemma ensure_user_disk w user_id name :
  let w' := fst (ensure_user user_id name w) in
  let known := contains (py_str user_id) (users w) in
  write_log w' =
    (write_log w ++
     if known then [] else [(USERS_FILE, hd WriteOk (write_script w))])%list /\
  write_script w' = (if known then write_script w else tail (write_script w)) /\
  (forall p, p <> USERS_FILE -> files w' !! p = files w !! p) /\
  (known = true -> files w' = files w) /\
  (known = false -> hd WriteOk (write_script w) = WriteOk ->
     files w' !! USERS_FILE = Some (json_dumps (json_of_users (users w')))) /\
  snd (ensure_user user_id name w) =
    (if known then Ok tt
     else match hd WriteOk (write_script w) with
          | WriteOk => Ok tt
          | _ => Raise OSError
          end).
Proof.
  cbv zeta. destruct (contains (py_str user_id) (users w)) eqn:E.
  - rewrite (ensure_user_present _ _ _ E). simpl.
    by rewrite app_nil_r.
  - rewrite (ensure_user_absent _ _ _ E).
    set (w0 := set_users _ w). set (d := json_of_users _).
    rewrite save_json_log, save_json_script, save_json_result.
    split; [done|]. split; [done|]. split.
    { intros p Hp. by rewrite save_json_other_file. }
    split; [done|]. split; [|done].
    intros _ Hok. rewrite (save_json_mirror w0 USERS_FILE d Hok).
    by destruct (save_json_frame w0 USERS_FILE d) as (-> & _).
Qed.

(** What [append_report] leaves behind. *)
Lemma append_report_world w uid text :
  let w' := fst (append_report uid text w) in
  users w' = users w /\ tasks w' = tasks w /\
  net_script w' = net_script w /\ outbox w' = outbox w /\
  write_log w' = (write_log w ++ [(REPORTS_FILE, hd WriteOk (write_script w))])%list /\
  write_script w' = tail (write_script w) /\
  (forall p, p <> REPORTS_FILE -> files w' !! p = files w !! p) /\
  (hd WriteOk (write_script w) = WriteOk ->
     files w' !! REPORTS_FILE = Some (json_dumps (json_of_reports (reports w')))) /\
  snd (append_report uid text w) =
    match hd WriteOk (write_script w) with
    | WriteOk => Ok tt
    | _ => Raise OSError
    end.
Proof.
  cbv zeta. rewrite append_report_run. cbv zeta.
  set (rs := set uid _ (reports w)).
  set (w0 := set_reports _ (tick w)). set (d := json_of_reports rs).
  rewrite save_json_log, save_json_script, save_json_result.
  destruct (save_json_frame w0 REPORTS_FILE d) as (-> & Hr & -> & _ & -> & ->).
  repeat split; try done.
  - intros p Hp. by rewrite save_json_other_file.
  - intros Hok. rewrite (save_json_mirror w0 REPORTS_FILE d Hok). by rewrite Hr.
Qed.

Lemma append_task_world w uid text :
  let w' := fst (append_task uid text w) in
  users w' = users w /\ reports w' = reports w /\
  net_script w' = net_script w /\ outbox w' = outbox w /\
  write_log w' = (write_log w ++ [(TASKS_FILE, hd WriteOk (write_script w))])%list /\
  write_script w' = tail (write_script w) /\
  (forall p, p <> TASKS_FILE -> files w' !! p = files w !! p) /\
  (hd WriteOk (write_script w) = WriteOk ->
     files w' !! TASKS_FILE = Some (json_dumps (json_of_tasks (tasks w')))) /\
  snd (append_task uid text w) =
    match hd WriteOk (write_script w) with
    | WriteOk => Ok tt
    | _ => Raise OSError
    end.
Proof.
  cbv zeta. rewrite append_task_run. cbv zeta.
  set (ts := set uid _ (tasks w)).
  set (w0 := set_tasks _ (tick w)). set (d := json_of_tasks ts).
  rewrite save_json_log, save_json_script, save_json_result.
  destruct (save_json_frame w0 TASKS_FILE d) as (-> & -> & Ht & _ & -> & ->).
  repeat split; try done.
  - intros p Hp. by rewrite save_json_other_file.
  - intros Hok. rewrite (save_json_mirror w0 TASKS_FILE d Hok). by rewrite Ht.
Qed.
End HandlerRuns.

Section HandlerExtras.
Context {R : PyRuntime}.
Import PyStr.

(** X8. A message in which the command word followed by a space does not
    occur is stored as it was sent, and a message that begins with the
    command word and a space is stored without that prefix alone when the
    rest does not contain it again. *)
Theorem report_stores_text_as_sent (w : world) (update : Update) :
  snd (ensure_user (IntId (sender_id update)) (sender_first_name update) w) = Ok tt ->
  let uid := str_of_int (sender_id update) in
  let history := get_or uid [] (reports (fst (report update w))) in
  (occurs "/report " (message_text update) = false ->
     history =
       (get_or uid [] (reports w) ++ [new_report (message_text update) w])%list) /\
  (forall arg,
     message_text update = "/report " +:+ arg ->
     occurs "/report " arg = false ->
     history = (get_or uid [] (reports w) ++ [new_report arg w])%list).
Proof.
  intros Hok. cbv zeta. rewrite (report_stores _ _ Hok). split.
  - intros Hno. by rewrite replace_no_occurrence.
  - intros arg -> Hno.
    by rewrite replace_hit, str_app_nil, replace_no_occurrence.
Qed.


(** X10. An acknowledged report is on disk: when [report] answers with the
    acknowledgement, [reports.json] holds the text of the whole document in
    memory, the new report and every report stored before it, those whose
    own save had failed included. The same holds for [add_task] and
    [tasks.json]. *)
Theorem acknowledged_is_on_disk (w : world) (update : Update) :
  (snd (report update w) = Ok REPLY_REPORT_SAVED ->
     files (fst (report update w)) !! REPORTS_FILE =
       Some (json_dumps (json_of_reports (reports (fst (report update w)))))) /\
  (snd (add_task update w) = Ok REPLY_TASK_ADDED ->
     files (fst (add_task update w)) !! TASKS_FILE =
       Some (json_dumps (json_of_tasks (tasks (fst (add_task update w)))))).
Proof.
  split.
  - rewrite report_run. cbv zeta.
    destruct (snd (ensure_user _ _ w)); simpl; [|done].
    match goal with
    | |- context [append_report ?u ?t ?w0] =>
        pose proof (append_report_world w0 u t) as (_ & _ & _ & _ & _ & _ & _ & Hm & Hres)
    end.
    cbv zeta in Hm, Hres. rewrite Hres.
    destruct (hd WriteOk (write_script _)); [|done|done].
    intros _. by apply Hm.
  - rewrite add_task_run. cbv zeta.
    destruct (snd (ensure_user _ _ w)); simpl; [|done].
    match goal with
    | |- context [append_task ?u ?t ?w0] =>
        pose proof (append_task_world w0 u t) as (_ & _ & _ & _ & _ & _ & _ & Hm & Hres)
    end.
    cbv zeta in Hm, Hres. rewrite Hres.
    destruct (hd WriteOk (write_script _)); [|done|done].
    intros _. by apply Hm.
Qed.
End HandlerExtras.

Section WriteExtras.
Context {R : PyRuntime}.
Import PyStr.

Lemma writes_within_refl paths w : writes_within paths w w.
Proof.
  split; [done|]. exists []. rewrite app_nil_r. split; [done|].
  split; constructor.
Qed.

Lemma writes_within_same paths w w' :
  files w' = files w -> write_log w' = write_log w -> writes_within paths w w'.
Proof.
  intros Hf Hl. split; [by rewrite Hf|]. exists []. rewrite app_nil_r.
  split; [done|]. split; constructor.
Qed.

Lemma writes_within_trans l1 l2 w w1 w2 :
  (forall p, p ∈ l1 -> p ∉ l2) ->
  writes_within l1 w w1 -> writes_within l2 w1 w2 ->
  writes_within (l1 ++ l2) w w2.
Proof.
  intros Hdisj [Hf1 (a1 & Hl1 & Ha1 & Hn1)] [Hf2 (a2 & Hl2 & Ha2 & Hn2)]. split.
  - intros p Hp. apply not_elem_of_app in Hp as [Hp1 Hp2].
    by rewrite Hf2, Hf1.
  - exists (a1 ++ a2)%list. rewrite Hl2, Hl1, <- app_assoc. split; [done|]. split.
    + apply Forall_app. split.
      * eapply Forall_impl; [exact Ha1|]. intros x Hx. apply elem_of_app. by left.
      * eapply Forall_impl; [exact Ha2|]. intros x Hx. apply elem_of_app. by right.
    + rewrite fmap_app. apply NoDup_app. split; [done|]. split; [|done].
      intros p Hp1 Hp2.
      apply list_elem_of_fmap in Hp1 as (x1 & -> & Hx1).
      apply list_elem_of_fmap in Hp2 as (x2 & Heq & Hx2).
      rewrite Forall_forall in Ha1, Ha2.
      apply (Hdisj (fst x1)); [by apply Ha1|]. rewrite Heq. by apply Ha2.
Qed.

Lemma ensure_user_writes w user_id name :
  writes_within [USERS_FILE] w (fst (ensure_user user_id name w)).
Proof.
  pose proof (ensure_user_disk w user_id name) as (Hlog & _ & Hother & _).
  cbv zeta in *. split.
  - intros p Hp. apply Hother. intros ->. apply Hp. by left.
  - eexists. split; [exact Hlog|].
    destruct (contains (py_str user_id) (users w)).
    + split; constructor.
    + split; [constructor; [by left | constructor]|].
      apply NoDup_singleton.
Qed.

Lemma append_report_writes w uid text :
  writes_within [REPORTS_FILE] w (fst (append_report uid text w)).
Proof.
  pose proof (append_report_world w uid text)
    as (_ & _ & _ & _ & Hlog & _ & Hother & _).
  cbv zeta in *. split.
  - intros p Hp. apply Hother. intros ->. apply Hp. by left.
  - eexists. split; [exact Hlog|]. split; [|apply NoDup_singleton].
    constructor; [by left | constructor].
Qed.

Lemma append_task_writes w uid text :
  writes_within [TASKS_FILE] w (fst (append_task uid text w)).
Proof.
  pose proof (append_task_world w uid text)
    as (_ & _ & _ & _ & Hlog & _ & Hother & _).
  cbv zeta in *. split.
  - intros p Hp. apply Hother. intros ->. apply Hp. by left.
  - eexists. split; [exact Hlog|]. split; [|apply NoDup_singleton].
    constructor; [by left | constructor].
Qed.

Lemma users_file_apart p :
  p ∈ [USERS_FILE] -> (p ∉ [REPORTS_FILE]) /\ (p ∉ [TASKS_FILE]).
Proof.
  destruct data_paths_distinct as (Hur & Hut & _).
  intros Hp. apply list_elem_of_singleton in Hp as ->.
  split; intros H; apply list_elem_of_singleton in H; done.
Qed.

Lemma report_writes w update :
  writes_within [USERS_FILE; REPORTS_FILE] w (fst (report update w)).
Proof.
  rewrite report_run. cbv zeta.
  pose proof (ensure_user_writes w (IntId (sender_id update))
                (sender_first_name update)) as He.
  assert (Hd : forall p, p ∈ [USERS_FILE] -> p ∉ [REPORTS_FILE])
    by (intros p Hp; by apply users_file_apart).
  destruct (snd (ensure_user _ _ w)); cbn [fst].
  - apply (writes_within_trans [USERS_FILE] [REPORTS_FILE] _ _ _ Hd He).
    apply append_report_writes.
  - apply (writes_within_trans [USERS_FILE] [REPORTS_FILE] _ _ _ Hd He).
    apply writes_within_refl.
Qed.

Lemma add_task_writes w update :
  writes_within [USERS_FILE; TASKS_FILE] w (fst (add_task update w)).
Proof.
  rewrite add_task_run. cbv zeta.
  pose proof (ensure_user_writes w (IntId (sender_id update))
                (sender_first_name update)) as He.
  assert (Hd : forall p, p ∈ [USERS_FILE] -> p ∉ [TASKS_FILE])
    by (intros p Hp; by apply users_file_apart).
  destruct (snd (ensure_user _ _ w)); cbn [fst].
  - apply (writes_within_trans [USERS_FILE] [TASKS_FILE] _ _ _ Hd He).
    apply append_task_writes.
  - apply (writes_within_trans [USERS_FILE] [TASKS_FILE] _ _ _ Hd He).
    apply writes_within_refl.
Qed.

(** X11. Every callback keeps to its own files: [start] writes at most
    [users.json]; [report], for a command or for a plain text, at most
    [users.json] and [reports.json]; [add_task] at most [users.json] and
    [tasks.json]; no file is written twice by one call. [show_reports],
    [tip_command], the job of the scheduler and a run of the body of
    [daily_summary] write nothing. Every other file of the data directory
    is as it was. *)
Theorem handlers_write_only_their_files (e : event) (w : world) :
  writes_within (written_by e) w (handle e w).
Proof.
  destruct e as [u|u|u|u|u|u| |]; simpl.
  - rewrite start_world. apply ensure_user_writes.
  - apply report_writes.
  - rewrite show_reports_world. apply writes_within_refl.
  - apply add_task_writes.
  - apply writes_within_refl.
  - apply report_writes.
  - apply writes_within_refl.
  - rewrite daily_summary_run. cbn [fst].
    destruct (fold_after_delivery_frame (items (users w)) w) as (_ & _ & _ & Hf & Hl).
    by apply writes_within_same.
Qed.
End WriteExtras.

Section ShowExtras.
Import PyStr.

Lemma last_n_length {A : Type} (n : nat) (l : list A) :
  length (last_n n l) = Nat.min n (length l).
Proof. unfold last_n. rewrite length_drop. lia. Qed.

Lemma last_n_suffix {A : Type} (n : nat) (l : list A) :
  l = (take (length l - n) l ++ last_n n l)%list.
Proof. unfold last_n. by rewrite take_drop. Qed.

(** X12. The three replies of [show_reports]. A name that no user carries
    gets the "not found" text. A user found who has no report, because the
    id has no history or an empty one, gets the "no reports" text. Otherwise
    the reply lists the last reports of the history, at most 10 and all of
    them when there are fewer, oldest first, one bullet each, separated by
    blank lines. The world is left as it is in every case. *)
Theorem show_reports_replies (w : world) (update : Update) :
  let name := name_to_find update in
  let bullet r := "- " +:+ report_text r in
  (resolve_id_by_name (items (users w)) name = None ->
     show_reports update w = (w, Ok REPLY_NOT_FOUND)) /\
  (forall selected,
     resolve_id_by_name (items (users w)) name = Some selected ->
     get_or selected [] (reports w) = [] ->
     show_reports update w = (w, Ok REPLY_NO_REPORTS)) /\
  (forall selected,
     resolve_id_by_name (items (users w)) name = Some selected ->
     get_or selected [] (reports w) <> [] ->
     exists older shown,
       get_or selected [] (reports w) = (older ++ shown)%list /\
       length shown = Nat.min 10 (length (get_or selected [] (reports w))) /\
       show_reports update w =
         (w, Ok (REPLY_REPORTS_HEADER +:+ NL +:+ NL +:+
                 join (NL +:+ NL) (map bullet shown)))).
Proof.
  cbv zeta. rewrite show_reports_run. split; [|split].
  - by intros ->.
  - by intros selected -> ->.
  - intros selected -> Hne.
    exists (take (length (get_or selected [] (reports w)) - 10)
                 (get_or selected [] (reports w))),
           (last_n 10 (get_or selected [] (reports w))).
    split; [apply last_n_suffix|]. split; [apply last_n_length|].
    by destruct (get_or selected [] (reports w)).
Qed.

(** X13. The argument of [/show] is trimmed: for a text made of the command
    word, a space and an argument that does not contain them again, the name
    looked for is the argument without the blanks around it, and the
    sender's own name when nothing but blanks is left. *)
Theorem show_argument_is_trimmed (update : Update) (arg : string) :
  message_text update = "/show " +:+ arg ->
  occurs "/show " arg = false ->
  name_to_find update =
    if truthy (strip arg) then strip arg else sender_first_name update.
Proof.
  intros Htext Hno. unfold name_to_find. rewrite Htext.
  by rewrite replace_hit, str_app_nil, replace_no_occurrence.
Qed.
End ShowExtras.

(** * Invariants of the running bot *)

Section EventFacts.
Context {R : PyRuntime}.
Import PyStr.

(** What one event can do to the documents in memory: add one user at the
    end of [users]; add one element at the end of the history of an id that
    is registered by then; a task that is added is not done. *)
Lemma handle_shape (e : event) (w : world) :
  let w' := handle e w in
  (users w' = users w \/
   exists uid name,
     contains uid (users w) = false /\ users w' = (users w ++ [(uid, name)])%list) /\
  (reports w' = reports w \/
   exists uid r,
     contains uid (users w') = true /\
     reports w' = set uid (get_or uid [] (reports w) ++ [r])%list (reports w)) /\
  (tasks w' = tasks w \/
   exists uid t,
     contains uid (users w') = true /\ task_done t = false /\
     tasks w' = set uid (get_or uid [] (tasks w) ++ [t])%list (tasks w)).
Proof.
  cbv zeta.
  assert (Hens : forall update,
    let w1 := fst (ensure_user (IntId (sender_id update)) (sender_first_name update) w) in
    (users w1 = users w \/
     exists uid name,
       contains uid (users w) = false /\ users w1 = (users w ++ [(uid, name)])%list) /\
    reports w1 = reports w /\ tasks w1 = tasks w /\
    contains (str_of_int (sender_id update)) (users w1) = true).
  { intros update. cbv zeta.
    pose proof (ensure_user_frame w (IntId (sender_id update))
                  (sender_first_name update)) as (Hr & Ht & _).
    pose proof (ensure_user_registered w (IntId (sender_id update))
                  (sender_first_name update)) as Hreg.
    cbv zeta in Hr, Ht. split; [|by split].
    rewrite ensure_user_users.
    destruct (contains _ (users w)) eqn:E; [by left|]. right. eauto. }
  destruct e as [u|u|u|u|u|u| |]; cbn [handle].
  - rewrite start_world. destruct (Hens u) as (Hu & -> & -> & _). auto.
  - rewrite report_run. cbv zeta. destruct (Hens u) as (Hu & Hr & Ht & Hreg).
    destruct (snd (ensure_user _ _ w)); cbn [fst]; [|rewrite Hr, Ht; auto].
    match goal with
    | |- context [append_report ?k ?t ?w0] =>
        pose proof (append_report_world w0 k t) as (Hu' & Ht' & _);
        pose proof (append_report_reports w0 k t) as Hr'
    end.
    cbv zeta in Hu', Ht'. rewrite Hu', Ht', Hr', Hr, Ht.
    split; [done|]. split; [|auto]. right. eauto.
  - rewrite show_reports_world. auto.
  - rewrite add_task_run. cbv zeta. destruct (Hens u) as (Hu & Hr & Ht & Hreg).
    destruct (snd (ensure_user _ _ w)); cbn [fst]; [|rewrite Hr, Ht; auto].
    match goal with
    | |- context [append_task ?k ?t ?w0] =>
        pose proof (append_task_world w0 k t) as (Hu' & Hr' & _);
        pose proof (append_task_tasks w0 k t) as Ht'
    end.
    cbv zeta in Hu', Hr'. rewrite Hu', Hr', Ht', Hr, Ht.
    split; [done|]. split; [auto|]. right.
    eexists _, (new_task _ _). split; [done|]. by split.
  - auto.
  - rewrite report_run. cbv zeta. destruct (Hens u) as (Hu & Hr & Ht & Hreg).
    destruct (snd (ensure_user _ _ w)); cbn [fst]; [|rewrite Hr, Ht; auto].
    match goal with
    | |- context [append_report ?k ?t ?w0] =>
        pose proof (append_report_world w0 k t) as (Hu' & Ht' & _);
        pose proof (append_report_reports w0 k t) as Hr'
    end.
    cbv zeta in Hu', Ht'. rewrite Hu', Ht', Hr', Hr, Ht.
    split; [done|]. split; [|auto]. right. eauto.
  - auto.
  - rewrite daily_summary_run. cbn [fst].
    destruct (fold_after_delivery_frame (items (users w)) w) as (-> & -> & -> & _).
    auto.
Qed.

Lemma get_or_set {V : Type} (k k' : string) (v dflt : V) (d : dict V) :
  get_or k' dflt (set k v d) = if String.eqb k' k then v else get_or k' dflt d.
Proof.
  destruct (String.eqb k' k) eqn:E.
  - apply String.eqb_eq in E. subst. apply get_or_set_same.
  - apply String.eqb_neq in E. by apply get_or_set_other.
Qed.

Lemma contains_set_other {V : Type} (k k' : string) (v : V) (d : dict V) :
  k' <> k -> contains k' (set k v d) = contains k' d.
Proof. intros H. unfold contains. by rewrite get_set_other. Qed.

Lemma contains_app_present {V : Type} (k : string) (d d' : dict V) :
  contains k d = true -> contains k (d ++ d')%list = true.
Proof.
  intros H. destruct (contains_true_get _ _ H) as [v Hv].
  unfold contains. by rewrite (get_app_present _ _ _ _ Hv).
Qed.

Lemma memory_extends_refl w : memory_extends w w.
Proof. by repeat split. Qed.

Lemma memory_extends_trans w1 w2 w3 :
  memory_extends w1 w2 -> memory_extends w2 w3 -> memory_extends w1 w3.
Proof.
  intros (Hu1 & Hr1 & Ht1) (Hu2 & Hr2 & Ht2). split; [|split].
  - eauto.
  - intros uid. etrans; [apply Hr1 | apply Hr2].
  - intros uid. etrans; [apply Ht1 | apply Ht2].
Qed.

Lemma handle_extends e w : memory_extends w (handle e w).
Proof.
  destruct (handle_shape e w) as (Hu & Hr & Ht). cbv zeta in *. split; [|split].
  - intros uid name Hget.
    destruct Hu as [-> | (k & n & _ & ->)]; [done|]. by apply get_app_present.
  - intros uid. destruct Hr as [-> | (k & r & _ & ->)]; [done|].
    rewrite get_or_set. destruct (String.eqb uid k) eqn:E; [|done].
    apply String.eqb_eq in E. subst. by apply prefix_app_r.
  - intros uid. destruct Ht as [-> | (k & t & _ & _ & ->)]; [done|].
    rewrite get_or_set. destruct (String.eqb uid k) eqn:E; [|done].
    apply String.eqb_eq in E. subst. by apply prefix_app_r.
Qed.

Lemma run_events_extends es w : memory_extends w (run_events es w).
Proof.
  revert w. induction es as [|e es IH]; intros w; simpl.
  - apply memory_extends_refl.
  - eapply memory_extends_trans; [apply handle_extends | apply IH].
Qed.

Lemma handle_registered e w :
  histories_registered w -> histories_registered (handle e w).
Proof.
  intros Hinv. destruct (handle_shape e w) as (Hu & Hr & Ht). cbv zeta in *.
  assert (Hkeep : forall uid,
            contains uid (users w) = true -> contains uid (users (handle e w)) = true).
  { intros uid H. destruct Hu as [-> | (k & n & _ & ->)]; [done|].
    by apply contains_app_present. }
  intros uid [Hin | Hin].
  - destruct Hr as [Hsame | (k & r & Hk & Hset)].
    + apply Hkeep, Hinv. left. by rewrite <- Hsame.
    + rewrite Hset in Hin. destruct (String.eqb uid k) eqn:E.
      * apply String.eqb_eq in E. by subst.
      * apply String.eqb_neq in E. rewrite contains_set_other in Hin by done.
        apply Hkeep, Hinv. by left.
  - destruct Ht as [Hsame | (k & t & Hk & _ & Hset)].
    + apply Hkeep, Hinv. right. by rewrite <- Hsame.
    + rewrite Hset in Hin. destruct (String.eqb uid k) eqn:E.
      * apply String.eqb_eq in E. by subst.
      * apply String.eqb_neq in E. rewrite contains_set_other in Hin by done.
        apply Hkeep, Hinv. by right.
Qed.

Lemma contains_keys {V : Type} (k : string) (d : dict V) :
  contains k d = true -> In k (keys d).
Proof.
  unfold contains, keys. induction d as [|[k0 v0] d IH]; simpl; [done|].
  destruct (String.eqb k0 k) eqn:E.
  - apply String.eqb_eq in E. by left.
  - intros H. right. by apply IH.
Qed.

(** The invariant can be checked key by key. *)
Lemma histories_registered_check w :
  forallb (fun k => contains k (users w)) (keys (reports w) ++ keys (tasks w)) = true ->
  histories_registered w.
Proof.
  intros H uid Hin. rewrite forallb_forall in H. apply H, in_or_app.
  destruct Hin as [Hin | Hin]; [left | right]; by apply contains_keys.
Qed.

Lemma pending_prefix (l l' : list Task) :
  l `prefix_of` l' ->
  length (List.filter (fun t => negb (task_done t)) l) <=
  length (List.filter (fun t => negb (task_done t)) l').
Proof. intros [k ->]. rewrite List.filter_app, length_app. lia. Qed.
End EventFacts.

Section MirrorFacts.
Context {R : PyRuntime}.
Import PyStr.

Lemma no_write_fault_script w w' :
  no_write_fault w ->
  write_script w' = write_script w \/ write_script w' = tail (write_script w) ->
  no_write_fault w'.
Proof.
  unfold no_write_fault. intros H [-> | ->]; [done|].
  destruct H; [constructor | done].
Qed.

Lemma ensure_user_mirror w user_id name :
  disk_mirrors_memory w -> no_write_fault w ->
  disk_mirrors_memory (fst (ensure_user user_id name w)) /\
  no_write_fault (fst (ensure_user user_id name w)) /\
  snd (ensure_user user_id name w) = Ok tt.
Proof.
  intros (Hu & Hr & Ht) Hnf.
  destruct data_paths_distinct as (Hur & Hut & Hrt).
  pose proof (ensure_user_disk w user_id name)
    as (_ & Hscript & Hother & Hknown & Hnew & Hres).
  pose proof (ensure_user_frame w user_id name) as (Hr' & Ht' & _).
  pose proof (ensure_user_users w user_id name) as Hu'.
  pose proof (no_write_fault_hd _ Hnf) as Hhd.
  cbv zeta in *. rewrite Hhd in Hres.
  destruct (contains (py_str user_id) (users w)) eqn:E.
  - split; [|split; [|done]].
    + unfold disk_mirrors_memory. by rewrite (Hknown eq_refl), Hu', Hr', Ht'.
    + eapply no_write_fault_script; [exact Hnf | by left].
  - split; [|split; [|done]].
    + unfold disk_mirrors_memory. rewrite Hr', Ht'.
      split; [by apply Hnew|]. split; rewrite Hother; done.
    + eapply no_write_fault_script; [exact Hnf | by right].
Qed.

Lemma append_report_mirror w uid text :
  disk_mirrors_memory w -> no_write_fault w ->
  disk_mirrors_memory (fst (append_report uid text w)) /\
  no_write_fault (fst (append_report uid text w)).
Proof.
  intros (Hu & Hr & Ht) Hnf.
  destruct data_paths_distinct as (Hur & Hut & Hrt).
  pose proof (append_report_world w uid text)
    as (Hu' & Ht' & _ & _ & _ & Hscript & Hother & Hm & _).
  cbv zeta in *. split.
  - unfold disk_mirrors_memory. rewrite Hu', Ht'.
    split; [by rewrite Hother|]. split; [by apply Hm, no_write_fault_hd|].
    by rewrite Hother.
  - eapply no_write_fault_script; [exact Hnf | by right].
Qed.

Lemma append_task_mirror w uid text :
  disk_mirrors_memory w -> no_write_fault w ->
  disk_mirrors_memory (fst (append_task uid text w)) /\
  no_write_fault (fst (append_task uid text w)).
Proof.
  intros (Hu & Hr & Ht) Hnf.
  destruct data_paths_distinct as (Hur & Hut & Hrt).
  pose proof (append_task_world w uid text)
    as (Hu' & Hr' & _ & _ & _ & Hscript & Hother & Hm & _).
  cbv zeta in *. split.
  - unfold disk_mirrors_memory. rewrite Hu', Hr'.
    split; [by rewrite Hother|]. split; [by rewrite Hother|].
    by apply Hm, no_write_fault_hd.
  - eapply no_write_fault_script; [exact Hnf | by right].
Qed.

Lemma fold_after_delivery_script l w :
  write_script (fold_left after_delivery l w) = write_script w.
Proof.
  revert w. induction l as [|x l IH]; intros w; simpl; [done|].
  rewrite IH. unfold after_delivery. by destruct (int_of_str (fst x)).
Qed.

Lemma handle_mirror e w :
  disk_mirrors_memory w -> no_write_fault w ->
  disk_mirrors_memory (handle e w) /\ no_write_fault (handle e w).
Proof.
  intros Hm Hnf.
  assert (Hens : forall u,
    disk_mirrors_memory (fst (ensure_user (IntId (sender_id u)) (sender_first_name u) w)) /\
    no_write_fault (fst (ensure_user (IntId (sender_id u)) (sender_first_name u) w)) /\
    snd (ensure_user (IntId (sender_id u)) (sender_first_name u) w) = Ok tt)
    by (intros u; by apply ensure_user_mirror).
  destruct e as [u|u|u|u|u|u| |]; cbn [handle].
  - rewrite start_world. by destruct (Hens u) as (? & ? & _).
  - rewrite report_run. cbv zeta. destruct (Hens u) as (Hm1 & Hnf1 & ->).
    cbn [fst]. by apply append_report_mirror.
  - by rewrite show_reports_world.
  - rewrite add_task_run. cbv zeta. destruct (Hens u) as (Hm1 & Hnf1 & ->).
    cbn [fst]. by apply append_task_mirror.
  - done.
  - rewrite report_run. cbv zeta. destruct (Hens u) as (Hm1 & Hnf1 & ->).
    cbn [fst]. by apply append_report_mirror.
  - done.
  - rewrite daily_summary_run. cbn [fst].
    destruct (fold_after_delivery_frame (items (users w)) w)
      as (Hu & Hr & Ht & Hf & _).
    split.
    + destruct Hm as (H1 & H2 & H3). unfold disk_mirrors_memory.
      by rewrite Hu, Hr, Ht, Hf.
    + unfold no_write_fault. by rewrite fold_after_delivery_script.
Qed.
End MirrorFacts.

Section InvariantExtras.
Context {R : PyRuntime}.
Import PyStr.

(** X14. Nothing the bot has stored is ever changed or lost, whatever
    events follow and whatever writes and deliveries fail: a registered id
    keeps its name, and the history of reports and the history of tasks of
    every id only grow at their end. *)
Theorem stored_data_is_never_changed (es : list event) (w : world) :
  let w' := run_events es w in
  (forall uid name,
     get uid (users w) = Some name -> get uid (users w') = Some name) /\
  (forall uid, get_or uid [] (reports w) `prefix_of` get_or uid [] (reports w')) /\
  (forall uid, get_or uid [] (tasks w) `prefix_of` get_or uid [] (tasks w')).
Proof. exact (run_events_extends es w). Qed.

(** X15. Every history belongs to a registered id: when each id that has
    reports or tasks is a key of [users], this is still so after any events,
    since the handlers register the sender before they store anything. *)
Theorem histories_stay_registered (es : list event) (w : world) :
  histories_registered w -> histories_registered (run_events es w).
Proof.
  revert w. induction es as [|e es IH]; intros w Hinv; simpl; [done|].
  by apply IH, handle_registered.
Qed.

(** X16. No event takes a report or a pending task away, so the two counts
    the tip is decided on never go down; a user who has the backlog tip
    therefore keeps it whatever happens next, and a user with at least two
    reports never gets the low-volume tip again. *)
Theorem backlog_tip_is_permanent (es : list event) (w : world) (uid : string) :
  let w' := run_events es w in
  pending_count w uid <= pending_count w' uid /\
  volume w uid <= volume w' uid /\
  (3 < pending_count w uid ->
     generate_tip (StrId uid) w' = (w', Ok TIP_BACKLOG)) /\
  (2 <= volume w uid ->
     generate_tip (StrId uid) w' <> (w', Ok TIP_LOW_VOLUME)).
Proof.
  cbv zeta. destruct (run_events_extends es w) as (_ & Hr & Ht).
  assert (Hp : pending_count w uid <= pending_count (run_events es w) uid)
    by apply pending_prefix, Ht.
  assert (Hv : volume w uid <= volume (run_events es w) uid)
    by apply prefix_length, Hr.
  split; [done|]. split; [done|].
  rewrite generate_tip_run. unfold tip_decision. simpl py_str. split.
  - intros H. assert (Hlt : 3 < pending_count (run_events es w) uid) by lia.
    apply Nat.ltb_lt in Hlt. by rewrite Hlt.
  - intros H. destruct (Nat.ltb 3 _); [intros [=]|].
    assert (Hge : 2 <= volume (run_events es w) uid) by lia.
    apply Nat.ltb_ge in Hge. rewrite Hge. intros [=].
Qed.

(** X17. While no write fails, disk and memory agree: when each of the
    three files holds the text of its document, it still does after any
    events. *)
Theorem disk_keeps_mirroring_memory (es : list event) (w : world) :
  disk_mirrors_memory w -> no_write_fault w ->
  disk_mirrors_memory (run_events es w) /\ no_write_fault (run_events es w).
Proof.
  revert w. induction es as [|e es IH]; intros w Hm Hnf; simpl; [done|].
  destruct (handle_mirror e w Hm Hnf) as [Hm' Hnf']. by apply IH.
Qed.
End InvariantExtras.

Section ReachExtras.
Context {R : PyRuntime}.
Import PyStr.

Lemma get_elem_of {V : Type} (k : string) (v : V) (d : dict V) :
  get k d = Some v -> (k, v) ∈ d.
Proof.
  induction d as [|[k0 v0] d IH]; simpl; [done|].
  destruct (String.eqb k0 k) eqn:E.
  - apply String.eqb_eq in E. intros [= ->]. subst. by left.
  - intros H. right. by apply IH.
Qed.

(** X18. Whoever has started the bot is served by the next broadcast: when
    [int] reads the sender's key back as the sender's id and the transport
    accepts every message, the run delivers every attempt, and among them
    the summary of the sender, addressed to the sender's id, under the name
    the id is registered with. This holds even when the write of [users]
    failed at the start. *)
Theorem started_user_receives_summary (w : world) (update : Update) :
  int_of_str (str_of_int (sender_id update)) = Some (sender_id update) ->
  Forall (fun ok => ok = true) (net_script w) ->
  let w1 := fst (start update w) in
  let uid := str_of_int (sender_id update) in
  exists name,
    get uid (users w1) = Some name /\
    outbox (fst (daily_summary w1)) = (outbox w1 ++ attempts w1)%list /\
    (sender_id update, summary_text w1 uid name) ∈ attempts w1.
Proof.
  intros Hint Hnet. cbv zeta. rewrite start_world.
  set (w1 := fst (ensure_user (IntId (sender_id update)) (sender_first_name update) w)).
  pose proof (ensure_user_registered w (IntId (sender_id update))
                (sender_first_name update)) as Hreg.
  pose proof (ensure_user_frame w (IntId (sender_id update))
                (sender_first_name update)) as (_ & _ & _ & Hn & _).
  fold w1 in Hreg, Hn. simpl py_str in Hreg.
  destruct (contains_true_get _ _ Hreg) as [name Hname].
  exists name. split; [done|]. split.
  - rewrite daily_summary_run. cbn [fst].
    apply fold_after_delivery_no_fault; [done | done | by rewrite Hn].
  - unfold attempts. apply list_elem_of_omap.
    exists (str_of_int (sender_id update), name). split.
    + by apply get_elem_of.
    + cbn [fst snd]. by rewrite Hint.
Qed.
End ReachExtras.

(** * The further properties at concrete inputs *)

Section ExtraWitnesses.
Import PyStr.
#[local] Existing Instance reference_runtime.

(** X1 on a [users.json] that holds a list: it is returned as it is. *)
Lemma load_json_reads_without_writing_witness :
  let w := with_files {[ USERS_FILE := "[1, 2]" ]} blank_world in
  load_json USERS_FILE (JObj []) w = (w, Ok (JArr [JNum 1; JNum 2])).
Proof.
  cbv zeta.
  apply (load_json_reads_without_writing
           (with_files {[ USERS_FILE := "[1, 2]" ]} blank_world)
           USERS_FILE "[1, 2]"); reflexivity.
Defined.

(** X2 on a broken [users.json] in a directory that refuses the open. *)
Lemma load_json_recovery_can_fail_witness :
  let w := with_write_script [OpenDenied]
             (with_files {[ USERS_FILE := "{ broken" ]} blank_world) in
  snd (load_json USERS_FILE (JObj []) w) = Raise OSError /\
  files (fst (load_json USERS_FILE (JObj []) w)) = files w.
Proof.
  cbv zeta.
  destruct (load_json_recovery_can_fail
              (with_write_script [OpenDenied]
                 (with_files {[ USERS_FILE := "{ broken" ]} blank_world))
              USERS_FILE) as (Hraise & _ & Hdenied & _).
  - right. exists "{ broken". split; reflexivity.
  - simpl. discriminate.
  - split; [exact Hraise|]. apply Hdenied. reflexivity.
Defined.

(** X3 on the document of one user. *)
Lemma save_then_load_returns_document_witness :
  let d := json_of_users [("1", "Ali")] in
  let w' := fst (save_json USERS_FILE d blank_world) in
  snd (save_json USERS_FILE d blank_world) = Ok tt /\
  files w' !! USERS_FILE = Some (json_dumps d) /\
  load_json USERS_FILE (JObj []) w' = (w', Ok d).
Proof.
  cbv zeta.
  apply (save_then_load_returns_document blank_world USERS_FILE
           (json_of_users [("1", "Ali")]) (JObj [])); reflexivity.
Defined.

(** X4 on a world whose memory still holds three users and whose data
    directory is empty: the start-up leaves three empty documents. *)
Lemma startup_initialises_fresh_directory_witness :
  let w' := fst (startup example_world) in
  snd (startup example_world) = Ok tt /\
  users w' = [] /\ reports w' = [] /\ tasks w' = [] /\
  files w' =
    <[TASKS_FILE := json_dumps (JObj [])]>
      (<[REPORTS_FILE := json_dumps (JObj [])]>
         (<[USERS_FILE := json_dumps (JObj [])]> (files example_world))) /\
  write_log w' =
    (write_log example_world ++
     [(USERS_FILE, WriteOk); (REPORTS_FILE, WriteOk); (TASKS_FILE, WriteOk)])%list /\
  startup w' = (w', Ok tt).
Proof.
  cbv zeta.
  apply (startup_initialises_fresh_directory example_world);
    try reflexivity.
  constructor.
Defined.

(** X5 on a data directory that refuses the first open. *)
Lemma startup_stops_at_first_failure_witness :
  let w := with_write_script [OpenDenied] blank_world in
  snd (startup w) = Raise OSError /\
  write_log (fst (startup w)) = [(USERS_FILE, OpenDenied)] /\
  files (fst (startup w)) !! REPORTS_FILE = None /\
  files (fst (startup w)) !! TASKS_FILE = None.
Proof.
  cbv zeta.
  apply (startup_stops_at_first_failure (with_write_script [OpenDenied] blank_world)).
  - reflexivity.
  - simpl. discriminate.
Defined.

(** X8: a plain text from Ali. *)
Lemma report_stores_text_as_sent_witness :
  let update :=
    {| sender_id := 101; sender_first_name := "Ali"; message_text := "reviewed two patches" |} in
  get_or "101" [] (reports (fst (report update example_world))) =
    (get_or "101" [] (reports example_world) ++
     [new_report "reviewed two patches" example_world])%list.
Proof.
  cbv zeta.
  destruct (report_stores_text_as_sent example_world
              {| sender_id := 101; sender_first_name := "Ali";
                 message_text := "reviewed two patches" |})
    as [Hplain _]; [reflexivity|].
  apply Hplain. reflexivity.
Defined.


(** X10: Sara's first report is cut while it is written; her second report
    is acknowledged, and the file then holds both. *)
Lemma acknowledged_is_on_disk_witness :
  let sara text :=
    {| sender_id := 102; sender_first_name := "Sara"; message_text := text |} in
  let w1 := fst (report (sara "first") (with_write_script [WriteFault 3] example_world)) in
  let w2 := fst (report (sara "second") w1) in
  snd (report (sara "first") (with_write_script [WriteFault 3] example_world)) = Raise OSError /\
  map report_text (get_or "102" [] (reports w2)) = ["only one"; "first"; "second"] /\
  files w2 !! REPORTS_FILE = Some (json_dumps (json_of_reports (reports w2))).
Proof.
  cbv beta zeta.
  split; [vm_compute; reflexivity|]. split; [vm_compute; reflexivity|].
  destruct (acknowledged_is_on_disk
              (fst (report {| sender_id := 102; sender_first_name := "Sara";
                             message_text := "first" |}
                      (with_write_script [WriteFault 3] example_world)))
              {| sender_id := 102; sender_first_name := "Sara";
                 message_text := "second" |}) as [Hreport _].
  apply Hreport. vm_compute. reflexivity.
Defined.

(** X12: Ali asks for Omid, who has five reports. *)
Lemma show_reports_replies_witness :
  let update :=
    {| sender_id := 101; sender_first_name := "Ali"; message_text := "/show Omid" |} in
  exists older shown,
    get_or "103" [] (reports example_world) = (older ++ shown)%list /\
    length shown = Nat.min 10 (length (get_or "103" [] (reports example_world))) /\
    show_reports update example_world =
      (example_world,
       Ok (REPLY_REPORTS_HEADER +:+ NL +:+ NL +:+
           join (NL +:+ NL) (map (fun r => "- " +:+ report_text r) shown))).
Proof.
  cbv zeta.
  pose proof (show_reports_replies example_world
                {| sender_id := 101; sender_first_name := "Ali";
                   message_text := "/show Omid" |}) as H.
  cbv zeta in H. destruct H as (_ & _ & Hlist).
  apply (Hlist "103"); [reflexivity | discriminate].
Defined.

(** X13: blanks around the name; in the second message they are a
    no-break space (U+00A0) before it and an ideographic space (U+3000)
    after it. *)
Lemma show_argument_is_trimmed_witness :
  let nbsp := chr 194 +:+ chr 160 in
  let wide := chr 227 +:+ chr 128 +:+ chr 128 in
  name_to_find
    {| sender_id := 101; sender_first_name := "Ali"; message_text := "/show   Omid  " |}
  = "Omid" /\
  name_to_find
    {| sender_id := 101; sender_first_name := "Ali";
       message_text := "/show " +:+ nbsp +:+ "Omid" +:+ wide |}
  = "Omid".
Proof.
  cbv zeta. split.
  - rewrite (show_argument_is_trimmed
               {| sender_id := 101; sender_first_name := "Ali";
                  message_text := "/show   Omid  " |}
               "  Omid  " eq_refl eq_refl).
    reflexivity.
  - rewrite (show_argument_is_trimmed
               {| sender_id := 101; sender_first_name := "Ali";
                  message_text :=
                    "/show " +:+ (chr 194 +:+ chr 160) +:+ "Omid" +:+
                    (chr 227 +:+ chr 128 +:+ chr 128) |}
               ((chr 194 +:+ chr 160) +:+ "Omid" +:+ (chr 227 +:+ chr 128 +:+ chr 128))
               eq_refl eq_refl).
    reflexivity.
Defined.

(** The events of one day: a newcomer reports while [users.json] cannot be
    written, Ali adds a task, Sara writes a plain text, midnight comes, and
    the summaries are sent. *)
Lemma example_world_histories_registered : histories_registered example_world.
Proof. by apply histories_registered_check. Qed.

(** X15 on [example_world] and the events of one day. *)
Lemma histories_stay_registered_witness :
  histories_registered
    (run_events
       [OnReport {| sender_id := 555; sender_first_name := "Zed"; message_text := "/report hi" |};
        OnTask {| sender_id := 101; sender_first_name := "Ali"; message_text := "/task plan" |};
        OnText {| sender_id := 102; sender_first_name := "Sara"; message_text := "done early" |};
        OnMidnight; OnSummaryRun]
       (with_write_script [OpenDenied] example_world)).
Proof.
  apply (histories_stay_registered _ (with_write_script [OpenDenied] example_world)).
  exact example_world_histories_registered.
Defined.

(** X16: Ali has four pending tasks; after the events of one day the tip is
    still the backlog text. *)
Lemma backlog_tip_is_permanent_witness :
  let w' :=
    run_events
      [OnReport {| sender_id := 101; sender_first_name := "Ali"; message_text := "/report all done" |};
       OnShow {| sender_id := 101; sender_first_name := "Ali"; message_text := "/show Ali" |};
       OnMidnight; OnSummaryRun]
      example_world in
  generate_tip (StrId "101") w' = (w', Ok TIP_BACKLOG).
Proof.
  cbv zeta.
  pose proof (backlog_tip_is_permanent
                [OnReport {| sender_id := 101; sender_first_name := "Ali";
                             message_text := "/report all done" |};
                 OnShow {| sender_id := 101; sender_first_name := "Ali";
                           message_text := "/show Ali" |};
                 OnMidnight; OnSummaryRun]
                example_world "101") as H.
  cbv zeta in H. destruct H as (_ & _ & Hbacklog & _).
  apply Hbacklog. vm_compute. lia.
Defined.

(** X17 from a directory of three empty documents. *)
Lemma disk_keeps_mirroring_memory_witness :
  let w := with_files
             (<[TASKS_FILE := "{}"]> (<[REPORTS_FILE := "{}"]> {[ USERS_FILE := "{}" ]}))
             blank_world in
  let w' :=
    run_events
      [OnStart {| sender_id := 7; sender_first_name := "Ali"; message_text := "/start" |};
       OnReport {| sender_id := 7; sender_first_name := "Ali"; message_text := "/report a" |};
       OnTask {| sender_id := 8; sender_first_name := "Bo"; message_text := "/task b" |}]
      w in
  disk_mirrors_memory w' /\ no_write_fault w'.
Proof.
  cbv zeta.
  apply (disk_keeps_mirroring_memory _
           (with_files
              (<[TASKS_FILE := "{}"]> (<[REPORTS_FILE := "{}"]> {[ USERS_FILE := "{}" ]}))
              blank_world)).
  - repeat split.
  - constructor.
Defined.

(** X18: Ali starts the bot in the blank world. *)
Lemma started_user_receives_summary_witness :
  let update := {| sender_id := 7; sender_first_name := "Ali"; message_text := "/start" |} in
  let w1 := fst (start update blank_world) in
  exists name,
    get "7" (users w1) = Some name /\
    outbox (fst (daily_summary w1)) = (outbox w1 ++ attempts w1)%list /\
    (7%Z, summary_text w1 "7" name) ∈ attempts w1.
Proof.
  cbv zeta.
  apply (started_user_receives_summary blank_world
           {| sender_id := 7; sender_first_name := "Ali"; message_text := "/start" |}).
  - reflexivity.
  - constructor.
Defined.

(** Start-up on the directory a run without faults leaves behind: the three
    documents of [example_world] are read back from their files, and nothing
    is written. *)
Example startup_reads_back_example_world :
  let w := with_files
             (<[TASKS_FILE := json_dumps (json_of_tasks (tasks example_world))]>
                (<[REPORTS_FILE := json_dumps (json_of_reports (reports example_world))]>
                   {[ USERS_FILE := json_dumps (json_of_users (users example_world)) ]}))
             blank_world in
  let w' := fst (startup w) in
  snd (startup w) = Ok tt /\
  users w' = users example_world /\
  reports w' = reports example_world /\
  tasks w' = tasks example_world /\
  files w' = files w /\
  write_log w' = [].
Proof. cbv zeta. repeat apply conj; vm_compute; reflexivity. Qed.
End ExtraWitnesses.
